(** * jsonrpcclient: the protocol-agnostic client core

    A shallow embedding of [jsonrpcclient/client.py] (class [Client]) and of
    the collaborators it calls, followed by the properties of [send],
    [notify], [request] and [__getattr__].

    Python values are a tagged union, objects mutated in place live in a
    store and are passed by reference, and a method is a computation that
    threads the store, may raise, and records the calls it makes to its
    hooks (logging, transport, validation, parsing). *)

From Stdlib Require Import ZArith String Ascii List.
From stdpp Require Import base option gmap strings list pretty.

Local Open Scope Z_scope.
Local Open Scope string_scope.

(** ** Python values *)

(** The values that travel through the client: what JSON can carry, plus
    references to objects JSON cannot carry (an iterator used as id
    generator, a transport handle).  A dict is a list of items because
    Python dicts keep insertion order and [json.dumps] writes them in that
    order.  Floats are left out. *)
#[local] Unset Elimination Schemes.
Inductive pyval : Type :=
| PNone
| PBool (b : bool)
| PInt (z : Z)
| PStr (s : string)
| PList (l : list pyval)
| PDict (d : list (string * pyval))
| PRef (r : nat).
#[local] Set Elimination Schemes.

(** Keyword arguments of a call, [**kwargs]. *)
Abbreviation kwargs := (list (string * pyval)).

(** The double quote, and a text written with apostrophes where it has
    double quotes. *)
Definition dquote : ascii := ascii_of_N 34.

Fixpoint qq (s : string) : string :=
  match s with
  | EmptyString => EmptyString
  | String c r => String (if (N_of_ascii c =? 39)%N then dquote else c) (qq r)
  end.

Fixpoint kw_get (name : string) (kw : kwargs) : option pyval :=
  match kw with
  | [] => None
  | (k, v) :: rest => if String.eqb k name then Some v else kw_get name rest
  end.

Definition kw_has (name : string) (kw : kwargs) : bool :=
  match kw_get name kw with Some _ => true | None => false end.

(** The keyword arguments left once the named parameters of a signature
    have taken theirs. *)
Definition kw_without (names : list string) (kw : kwargs) : kwargs :=
  List.filter (fun kv => negb (existsb (String.eqb (fst kv)) names)) kw.

(** ** Exceptions and results *)

Inductive exn : Type :=
| TypeError (msg : string)
| ArgumentError
| ParseError (text : string)
| ValidationError (field : string)
| StopIteration
| TransportError (msg : string)
| OtherError (cls msg : string)
| Dangling (r : nat).
(* [Dangling] is not a Python exception: it marks a run in which a hook
   handed back a reference to an object that is not in the store, which
   Python cannot do. *)

Inductive outcome (A : Type) : Type :=
| Ok (a : A)
| Raise (e : exn).
Arguments Ok {A} a.
Arguments Raise {A} e.

Definition outcome_bind {A B} (o : outcome A) (f : A -> outcome B) : outcome B :=
  match o with
  | Ok a => f a
  | Raise e => Raise e
  end.

(** ** JSON text *)

Module Json.

(** *** Encoding: Python's [json.dumps] with its default arguments

    Items are separated by a comma and a space, a key from its value by
    a colon and a space, [ensure_ascii] is on, keys keep the order of the
    dict.  A character of a [string] is read as the code
    point of the same number. *)

Definition hex_digit (n : N) : ascii :=
  match n with
  | 0 => "0" | 1 => "1" | 2 => "2" | 3 => "3" | 4 => "4" | 5 => "5"
  | 6 => "6" | 7 => "7" | 8 => "8" | 9 => "9" | 10 => "a" | 11 => "b"
  | 12 => "c" | 13 => "d" | 14 => "e" | _ => "f"
  end%N%char.

Definition escape_char (c : ascii) : string :=
  let n := N_of_ascii c in
  if (n =? 34)%N then String "\" (String dquote EmptyString)
  else if (n =? 92)%N then "\\"
  else if (n =? 10)%N then "\n"
  else if (n =? 13)%N then "\r"
  else if (n =? 9)%N then "\t"
  else if (n =? 8)%N then "\b"
  else if (n =? 12)%N then "\f"
  else if ((32 <=? n) && (n <=? 126))%N then String c EmptyString
  else "\u00" ++ String (hex_digit (n / 16)) (String (hex_digit (n mod 16)) EmptyString).

Fixpoint escape (s : string) : string :=
  match s with
  | EmptyString => EmptyString
  | String c r => escape_char c ++ escape r
  end.

Definition quote (s : string) : string :=
  String dquote (escape s ++ String dquote EmptyString).

Fixpoint join (sep : string) (l : list string) : string :=
  match l with
  | [] => EmptyString
  | [x] => x
  | x :: r => x ++ sep ++ join sep r
  end.

(** All results of a list, or the first exception. *)
Fixpoint sequence {A} (l : list (outcome A)) : outcome (list A) :=
  match l with
  | [] => Ok []
  | o :: r => outcome_bind o (fun a => outcome_bind (sequence r) (fun r' => Ok (a :: r')))
  end.

Fixpoint dumps (v : pyval) : outcome string :=
  match v with
  | PNone => Ok "null"
  | PBool true => Ok "true"
  | PBool false => Ok "false"
  | PInt z => Ok (pretty z)
  | PStr s => Ok (quote s)
  | PList l =>
      outcome_bind (sequence (List.map dumps l))
        (fun items => Ok ("[" ++ join ", " items ++ "]"))
  | PDict d =>
      outcome_bind
        (sequence (List.map (fun kv => outcome_bind (dumps (snd kv))
                                    (fun t => Ok (quote (fst kv) ++ ": " ++ t))) d))
        (fun items => Ok ("{" ++ join ", " items ++ "}"))
  | PRef _ => Raise (TypeError "Object is not JSON serializable")
  end.

(** *** Decoding: Python's [json.loads], on a fragment

    The fragment: whitespace, [null], [true], [false], integers, strings
    of printable ASCII with the one-letter escapes, arrays and objects.
    A text that needs more (a fraction or exponent, a [\u] escape, a
    character above 127, [NaN]) is answered [Unmodelled], not
    [Malformed]. *)

Inductive res (A : Type) : Type :=
| Got (a : A) (rest : list ascii)
| Bad
| Beyond.
Arguments Got {A} a rest.
Arguments Bad {A}.
Arguments Beyond {A}.

Definition is_ws (c : ascii) : bool :=
  let n := N_of_ascii c in
  ((n =? 32) || (n =? 9) || (n =? 10) || (n =? 13))%N.

Fixpoint skip_ws (s : list ascii) : list ascii :=
  match s with
  | c :: r => if is_ws c then skip_ws r else s
  | [] => []
  end.

Definition digit_of (c : ascii) : option Z :=
  let n := N_of_ascii c in
  if ((48 <=? n) && (n <=? 57))%N then Some (Z.of_N n - 48) else None.

Fixpoint digits (acc : Z) (s : list ascii) : Z * list ascii :=
  match s with
  | c :: r => match digit_of c with
              | Some d => digits (10 * acc + d) r
              | None => (acc, s)
              end
  | [] => (acc, [])
  end.

(** After the digits of an integer: a fraction or an exponent makes the
    number a float. *)
Definition after_int (z : Z) (s : list ascii) : res pyval :=
  match s with
  | c :: _ =>
      if (Ascii.eqb c "." || Ascii.eqb c "e" || Ascii.eqb c "E")%char
      then Beyond else Got (PInt z) s
  | [] => Got (PInt z) []
  end.

(** An integer after its optional sign: a lone zero, or a nonzero digit
    and more digits.  Digits left after a leading zero are for the
    caller to reject. *)
Definition unsigned (sign : Z) (s : list ascii) : res pyval :=
  match s with
  | c :: r =>
      match digit_of c with
      | Some 0 => after_int 0 r
      | Some d => let '(z, r') := digits d r in after_int (sign * z) r'
      | None => Bad
      end
  | [] => Bad
  end.

Definition unescape (c : ascii) : option ascii :=
  let n := N_of_ascii c in
  if (n =? 34)%N then Some c
  else if (n =? 92)%N then Some c
  else if (n =? 47)%N then Some c
  else if (n =? 98)%N then Some (ascii_of_N 8)
  else if (n =? 102)%N then Some (ascii_of_N 12)
  else if (n =? 110)%N then Some (ascii_of_N 10)
  else if (n =? 114)%N then Some (ascii_of_N 13)
  else if (n =? 116)%N then Some (ascii_of_N 9)
  else None.

(** The characters of a string literal, after its opening quote. *)
Fixpoint chars (s : list ascii) : res string :=
  match s with
  | [] => Bad
  | c :: r =>
      let n := N_of_ascii c in
      if (n =? 34)%N then Got EmptyString r
      else if (n =? 92)%N then
        match r with
        | e :: r' =>
            if (N_of_ascii e =? 117)%N then Beyond
            else match unescape e with
                 | Some c' => match chars r' with
                              | Got t rest => Got (String c' t) rest
                              | Bad => Bad
                              | Beyond => Beyond
                              end
                 | None => Bad
                 end
        | [] => Bad
        end
      else if (n <? 32)%N then Bad
      else if (126 <? n)%N then Beyond
      else match chars r with
           | Got t rest => Got (String c t) rest
           | Bad => Bad
           | Beyond => Beyond
           end
  end.

(** A later item of a key replaces the value of the earlier one, in the
    earlier one's place, as [dict] does. *)
Fixpoint dict_set (k : string) (v : pyval) (d : list (string * pyval)) : list (string * pyval) :=
  match d with
  | [] => [(k, v)]
  | (k', v') :: r => if String.eqb k' k then (k', v) :: r else (k', v') :: dict_set k v r
  end.

Definition starts (lit : string) (s : list ascii) : option (list ascii) :=
  let l := list_ascii_of_string lit in
  if decide (take (length l) s = l) then Some (drop (length l) s) else None.

(** [value] reads one value at the head of [s]; [elements] and [members]
    read the rest of an array and of an object, [acc] holding what was
    read so far.  Every call spends one unit of fuel. *)
Fixpoint value (fuel : nat) (s : list ascii) : res pyval :=
  match fuel with
  | O => Beyond
  | S fuel =>
      match s with
      | [] => Bad
      | c :: r =>
          let n := N_of_ascii c in
          if (n =? 34)%N then
            match chars r with
            | Got t rest => Got (PStr t) rest
            | Bad => Bad
            | Beyond => Beyond
            end
          else if (n =? 91)%N then
            match skip_ws r with
            | c' :: r' => if (N_of_ascii c' =? 93)%N then Got (PList []) r'
                          else elements fuel [] (c' :: r')
            | [] => Bad
            end
          else if (n =? 123)%N then
            match skip_ws r with
            | c' :: r' => if (N_of_ascii c' =? 125)%N then Got (PDict []) r'
                          else members fuel [] (c' :: r')
            | [] => Bad
            end
          else if (n =? 45)%N then
            match starts "Infinity" r with
            | Some _ => Beyond
            | None => unsigned (-1) r
            end
          else match digit_of c with
               | Some _ => unsigned 1 s
               | None =>
                   match starts "null" s, starts "true" s, starts "false" s with
                   | Some rest, _, _ => Got PNone rest
                   | _, Some rest, _ => Got (PBool true) rest
                   | _, _, Some rest => Got (PBool false) rest
                   | _, _, _ =>
                       match starts "NaN" s, starts "Infinity" s with
                       | None, None => Bad
                       | _, _ => Beyond
                       end
                   end
               end
      end
  end
with elements (fuel : nat) (acc : list pyval) (s : list ascii) : res pyval :=
  match fuel with
  | O => Beyond
  | S fuel =>
      match value fuel s with
      | Got v rest =>
          match skip_ws rest with
          | c :: r =>
              if (N_of_ascii c =? 44)%N then elements fuel (acc ++ [v])%list (skip_ws r)
              else if (N_of_ascii c =? 93)%N then Got (PList (acc ++ [v])%list) r
              else Bad
          | [] => Bad
          end
      | Bad => Bad
      | Beyond => Beyond
      end
  end
with members (fuel : nat) (acc : list (string * pyval)) (s : list ascii) : res pyval :=
  match fuel with
  | O => Beyond
  | S fuel =>
      match s with
      | c :: r =>
          if (N_of_ascii c =? 34)%N then
            match chars r with
            | Got k rest =>
                match skip_ws rest with
                | c' :: r' =>
                    if (N_of_ascii c' =? 58)%N then
                      match value fuel (skip_ws r') with
                      | Got v rest' =>
                          match skip_ws rest' with
                          | c'' :: r'' =>
                              if (N_of_ascii c'' =? 44)%N
                              then members fuel (dict_set k v acc) (skip_ws r'')
                              else if (N_of_ascii c'' =? 125)%N
                              then Got (PDict (dict_set k v acc)) r''
                              else Bad
                          | [] => Bad
                          end
                      | Bad => Bad
                      | Beyond => Beyond
                      end
                    else Bad
                | [] => Bad
                end
            | Bad => Bad
            | Beyond => Beyond
            end
          else Bad
      | [] => Bad
      end
  end.

Inductive decoded : Type :=
| Decoded (v : pyval)
| Malformed
| Unmodelled.

(** The whole text is one value between optional whitespace. *)
Definition loads (text : string) : decoded :=
  let s := list_ascii_of_string text in
  match value (2 * length s + 2) (skip_ws s) with
  | Got v rest => match skip_ws rest with
                  | [] => Decoded v
                  | _ :: _ => Malformed
                  end
  | Bad => Malformed
  | Beyond => Unmodelled
  end.

End Json.


(** ** The store

    Responses and iterators are Python objects: created once, mutated in
    place, and known to whoever holds a reference.  They live in a store
    indexed by reference. *)

(** Modelled from the spec: the Response class ([response.py], spec
    section 3) with its [text], its optional transport handle
    [raw_response] and its [data], unset until parsed; [attrs] holds any
    further attribute a transport sets on the object. *)
Record Response : Type := mkResponse {
  text : string;
  raw_response : pyval;
  data : option pyval;
  attrs : gmap string pyval
}.

(** [response.data = d] *)
Definition with_data (d : pyval) (o : Response) : Response :=
  {| text := text o; raw_response := raw_response o; data := Some d; attrs := attrs o |}.

(** An iterator: the items it yields, by rank, and how many it has
    yielded.  [None] at the current rank is exhaustion. *)
Record iterator : Type := mkIterator {
  items : nat -> option pyval;
  pos : nat
}.

Record world : Type := mkWorld {
  heap : gmap nat Response;
  iters : gmap nat iterator;
  default_id : Z   (* the next id of the builder's own generator, spec 4.1 *)
}.

Definition set_heap (h : gmap nat Response) (w : world) : world :=
  {| heap := h; iters := iters w; default_id := default_id w |}.

(** ** Calls observed from outside *)

Inductive event : Type :=
| EvLog (logger level message : string) (trim : pyval) (extra : kwargs)
| EvAddHandler (logger format : string)
| EvSendMessage (request : string) (options : kwargs)
| EvValidateResponse (response : nat)
| EvParse (response_text : string) (validate_against_schema : pyval)
| EvSetData (response : nat) (d : pyval).

(** ** Computations: store, exceptions, observed calls *)

Definition M (A : Type) : Type := world -> outcome A * world * list event.

#[global] Instance M_ret : MRet M := fun A a w => (Ok a, w, []).

#[global] Instance M_bind : MBind M := fun A B f m w =>
  match m w with
  | (Ok a, w1, t1) => match f a w1 with (r, w2, t2) => (r, w2, (t1 ++ t2)%list) end
  | (Raise e, w1, t1) => (Raise e, w1, t1)
  end.

Definition raise {A} (e : exn) : M A := fun w => (Raise e, w, []).

Definition lift {A} (o : outcome A) : M A := fun w => (o, w, []).

Definition emit (e : event) : M unit := fun w => (Ok tt, w, [e]).

(** A call to code that works on the store and records nothing itself. *)
Definition hook {A} (f : world -> outcome A * world) : M A :=
  fun w => let '(r, w1) := f w in (r, w1, []).

Definition get_response (r : nat) : M Response := fun w =>
  match heap w !! r with
  | Some o => (Ok o, w, [])
  | None => (Raise (Dangling r), w, [])
  end.

Definition set_data (r : nat) (d : pyval) : M unit := fun w =>
  match heap w !! r with
  | Some o => (Ok tt, set_heap (<[r := with_data d o]> (heap w)) w, [EvSetData r d])
  | None => (Raise (Dangling r), w, [])
  end.

(** ** The client object and what subclasses provide *)

(** The attributes [__init__] sets. *)
Record Client : Type := mkClient {
  trim_log_values : pyval;
  validate_against_schema : pyval;
  id_generator : pyval
}.

(** The subclass: the abstract [send_message], the overridable
    [validate_response], and the names of the members it adds, on the
    class or on the instance. *)
Class Transport : Type := {
  send_message : Client -> string -> kwargs -> world -> outcome nat * world;
  validate_response : Client -> nat -> world -> outcome unit * world;
  subclass_members : list string
}.

(** [Client.validate_response] as the base class has it: [pass]. *)
Definition validate_response_base (self : Client) (response : nat) (w : world)
  : outcome unit * world := (Ok tt, w).

(** What [client.py] imports and calls: [json.dumps] and [parse]. *)
Class Collaborators : Type := {
  json_dumps : pyval -> outcome string;
  parse : string -> pyval -> outcome pyval
}.

(** ** Collaborators modelled from the spec *)

(** Truth value of a Python value, as [if v:] takes it. *)
Definition truthy (v : pyval) : bool :=
  match v with
  | PNone => false
  | PBool b => b
  | PInt z => negb (z =? 0)%Z
  | PStr s => negb (String.eqb s EmptyString)
  | PList l => match l with [] => false | _ => true end
  | PDict d => match d with [] => false | _ => true end
  | PRef _ => true
  end.

(** Modelled from the spec: the logging capability [log_] of [log.py]
    (section 6), [log(message, channel, level, trim) -> void]; the call is
    recorded and gives nothing back. *)
Definition log_ (message logger level : string) (trim : pyval) (extra : kwargs) : M unit :=
  emit (EvLog logger level message trim extra).

Definition request_log : string := "jsonrpcclient.client.request".
Definition response_log : string := "jsonrpcclient.client.response".

(** The instance attribute of a name, when the instance has one. *)
Definition self_attr (self : Client) (name : string) : option pyval :=
  if String.eqb name "trim_log_values" then Some (trim_log_values self)
  else if String.eqb name "validate_against_schema" then Some (validate_against_schema self)
  else if String.eqb name "id_generator" then Some (id_generator self)
  else None.

(** Modelled from the spec: [apply_self] of the [apply_defaults] package
    (section 9, self-binding of defaults).  A parameter the caller did not
    pass takes the value of the attribute of the same name on [self], and
    the default of the signature when [self] has no such attribute. *)
Definition apply_self (self : Client) (name : string) (default : pyval) (kw : kwargs) : pyval :=
  match kw_get name kw with
  | Some v => v
  | None => match self_attr self name with
            | Some v => v
            | None => default
            end
  end.

(** Modelled from the spec: the params rule of the Message Builder
    ([request.py], section 4.2).  No arguments: no params; positional
    arguments: an array; keyword arguments: an object; both:
    [ArgumentError]. *)
Definition build_params (args : list pyval) (kw : kwargs) : outcome (list (string * pyval)) :=
  match args, kw with
  | [], [] => Ok []
  | _ :: _, [] => Ok [("params", PList args)]
  | [], _ :: _ => Ok [("params", PDict kw)]
  | _ :: _, _ :: _ => Raise ArgumentError
  end.

(** Modelled from the spec: [Notification] of [request.py]
    ([build_notification], section 4.2): jsonrpc, method and, when there
    are arguments, params; no id. *)
Definition Notification (method : string) (args : list pyval) (kw : kwargs) : outcome pyval :=
  outcome_bind (build_params args kw) (fun params =>
  Ok (PDict ([("jsonrpc", PStr "2.0"); ("method", PStr method)] ++ params)%list)).

(** Modelled from the spec: drawing an id (sections 4.1 and 4.2).  Without
    a generator the builder's own is used, which counts 1, 2, 3, ...; a
    generator is an iterator of the store and [next] advances it. *)
Definition next_id (id_generator : pyval) : M pyval := fun w =>
  match id_generator with
  | PNone =>
      (Ok (PInt (default_id w)),
       {| heap := heap w; iters := iters w; default_id := default_id w + 1 |}, [])
  | PRef g =>
      match iters w !! g with
      | Some it =>
          match items it (pos it) with
          | Some v =>
              (Ok v,
               {| heap := heap w;
                  iters := <[g := {| items := items it; pos := S (pos it) |}]> (iters w);
                  default_id := default_id w |}, [])
          | None => (Raise StopIteration, w, [])
          end
      | None => (Raise (TypeError "object is not an iterator"), w, [])
      end
  | _ => (Raise (TypeError "object is not an iterator"), w, [])
  end.

(** Modelled from the spec: [Request] of [request.py] ([build_request],
    section 4.2), called without an explicit id as [Client.request] calls
    it: the fields of a notification, then an id drawn from the generator.
    The params rule is checked before the id is drawn. *)
Definition Request (method : string) (args : list pyval) (id_generator : pyval)
    (kw : kwargs) : M pyval :=
  params ← lift (build_params args kw);
  i ← next_id id_generator;
  mret (PDict ([("jsonrpc", PStr "2.0"); ("method", PStr method)] ++ params ++ [("id", i)])%list).

(** Modelled from the spec: [parse] of [parse.py] (section 4.4), the
    JSON decoder and the schema validator being capabilities handed in.
    An empty text is no reply at all (sections 3, 4.5 and 8: the reply to
    a notification may be empty, it is not parsed as JSON and gives no
    payload): it is answered [None] before the decoder is asked.  On a
    text the decoder leaves unmodelled the result is an [OtherError] of
    that name, which stands for no Python exception. *)
Module Parse.

Definition has_jsonrpc_2_0 (d : list (string * pyval)) : bool :=
  match kw_get "jsonrpc" d with
  | Some (PStr v) => String.eqb v "2.0"
  | _ => false
  end.

(** Step 3 on one response object.  The exception names the field at
    fault: [jsonrpc] when it is missing or not 2.0 (also when the element
    is not an object), [result] when neither result nor error is there,
    [error] when both are, [id] when it is missing, or null beside a
    result. *)
Definition check_single (v : pyval) : outcome unit :=
  match v with
  | PDict d =>
      if negb (has_jsonrpc_2_0 d) then Raise (ValidationError "jsonrpc")
      else match kw_has "result" d, kw_has "error" d with
           | false, false => Raise (ValidationError "result")
           | true, true => Raise (ValidationError "error")
           | has_result, _ =>
               match kw_get "id" d with
               | None => Raise (ValidationError "id")
               | Some PNone => if has_result then Raise (ValidationError "id") else Ok tt
               | Some _ => Ok tt
               end
           end
  | _ => Raise (ValidationError "jsonrpc")
  end.

Definition check_schema (schema : pyval -> outcome unit) (flag : pyval) (v : pyval)
  : outcome unit :=
  if truthy flag then schema v else Ok tt.

Definition parse_with (loads : string -> Json.decoded) (schema : pyval -> outcome unit)
    (text : string) (validate_against_schema : pyval) : outcome pyval :=
  if String.eqb text EmptyString then Ok PNone
  else
    match loads text with
    | Json.Malformed => Raise (ParseError text)
    | Json.Unmodelled => Raise (OtherError "Unmodelled" text)
    | Json.Decoded v =>
        match v with
        | PDict _ =>
            outcome_bind (check_single v) (fun _ =>
            outcome_bind (check_schema schema validate_against_schema v) (fun _ => Ok v))
        | PList l =>
            outcome_bind (Json.sequence (List.map check_single l)) (fun _ =>
            outcome_bind (check_schema schema validate_against_schema v) (fun _ => Ok v))
        | _ => Raise (ParseError text)
        end
    end.

(** [parse] with Python's decoder. *)
Definition parse (schema : pyval -> outcome unit) (text : string)
    (validate_against_schema : pyval) : outcome pyval :=
  parse_with Json.loads schema text validate_against_schema.

End Parse.

(** Python's own [json.dumps], and [parse] with a schema that accepts
    every payload. *)
Definition python_collaborators : Collaborators :=
  {| json_dumps := Json.dumps;
     parse := Parse.parse (fun _ => Ok tt) |}.

(** ** class Client *)

Section ClientMethods.

Context {K : Collaborators} {T : Transport}.

Definition DEFAULT_REQUEST_LOG_FORMAT : string := "--> %(message)s".
Definition DEFAULT_RESPONSE_LOG_FORMAT : string := "<-- %(message)s".

(** A keyword argument that names a parameter already bound by position
    ([self], and the first parameter of the method): Python refuses the
    call with a [TypeError]. *)
Definition rebinds (names : list string) (kw : kwargs) : bool :=
  existsb (fun n => kw_has n kw) names.

Definition multiple_values : exn := TypeError "got multiple values for argument".

Definition basic_logging (self : Client) : M unit :=
  emit (EvAddHandler request_log DEFAULT_REQUEST_LOG_FORMAT);;
  emit (EvAddHandler response_log DEFAULT_RESPONSE_LOG_FORMAT).

(** The body of [__init__], its arguments as [apply_config] leaves
    them. *)
Definition __init__ (trim_log_values validate_against_schema id_generator : pyval)
    (basic_logging_flag : bool) : M Client :=
  let self := {| trim_log_values := trim_log_values;
                 validate_against_schema := validate_against_schema;
                 id_generator := id_generator |} in
  if basic_logging_flag then basic_logging self;; mret self else mret self.

Definition log_request (self : Client) (request : string) (kw : kwargs) : M unit :=
  let trim_log_values := apply_self self "trim_log_values" (PBool false) kw in
  log_ request request_log "info" trim_log_values (kw_without ["trim_log_values"] kw).

Definition log_response (self : Client) (response : nat) (kw : kwargs) : M unit :=
  let trim_log_values := apply_self self "trim_log_values" (PBool false) kw in
  o ← get_response response;
  log_ (text o) response_log "info" trim_log_values (kw_without ["trim_log_values"] kw).

(** [request if isinstance(request, str) else json.dumps(request)] *)
Definition request_text_of (request : pyval) : outcome string :=
  match request with
  | PStr s => Ok s
  | _ => json_dumps request
  end.

(** The body of [send], lines 129 to 138. *)
Definition send_body (self : Client) (request : pyval)
    (trim_log_values validate_against_schema : pyval) (kw : kwargs) : M nat :=
  request_text ← lift (request_text_of request);
  log_request self request_text [("trim_log_values", trim_log_values)];;
  response ← (emit (EvSendMessage request_text kw);;
              hook (send_message self request_text kw));
  log_response self response [("trim_log_values", trim_log_values)];;
  (emit (EvValidateResponse response);;
   hook (validate_response self response));;
  d ← (o ← get_response response;
       emit (EvParse (text o) validate_against_schema);;
       lift (parse (text o) validate_against_schema));
  set_data response d;;
  mret response.

(** [send], decorated with [apply_self].  The two flags, passed by
    position or by keyword, are the items of those names in [kw]. *)
Definition send (self : Client) (request : pyval) (kw : kwargs) : M nat :=
  if rebinds ["self"; "request"] kw then raise multiple_values
  else
    send_body self request
      (apply_self self "trim_log_values" (PBool false) kw)
      (apply_self self "validate_against_schema" (PBool true) kw)
      (kw_without ["trim_log_values"; "validate_against_schema"] kw).

Definition notify (self : Client) (method_name : string) (args : list pyval)
    (kw : kwargs) : M nat :=
  if rebinds ["self"; "method_name"] kw then raise multiple_values
  else
    let trim_log_values := apply_self self "trim_log_values" PNone kw in
    let validate_against_schema := apply_self self "validate_against_schema" PNone kw in
    let kwargs := kw_without ["trim_log_values"; "validate_against_schema"] kw in
    n ← lift (Notification method_name args kwargs);
    send self n [("trim_log_values", trim_log_values);
                 ("validate_against_schema", validate_against_schema)].

Definition request (self : Client) (method_name : string) (args : list pyval)
    (kw : kwargs) : M nat :=
  if rebinds ["self"; "method_name"] kw then raise multiple_values
  else
    let trim_log_values := apply_self self "trim_log_values" (PBool false) kw in
    let validate_against_schema := apply_self self "validate_against_schema" (PBool true) kw in
    let id_generator := apply_self self "id_generator" PNone kw in
    let kwargs := kw_without ["trim_log_values"; "validate_against_schema"; "id_generator"] kw in
    r ← Request method_name args id_generator kwargs;
    send self r [("trim_log_values", trim_log_values);
                 ("validate_against_schema", validate_against_schema)].

Definition attr_handler (self : Client) (name : string) (args : list pyval)
    (kw : kwargs) : M nat :=
  request self name args kw.

Definition __getattr__ (self : Client) (name : string)
  : list pyval -> kwargs -> M nat :=
  attr_handler self name.

(** *** Attribute access *)

(** What [client.name] evaluates to.  [Unsettled] is a name that some
    versions of Python find by normal lookup and others hand to
    [__getattr__]. *)
Inductive attribute : Type :=
| Value (v : pyval)
| Member (name : string)
| Unsettled (name : string)
| Callable (f : list pyval -> kwargs -> M nat).

(** The members the class body and [__init__] define. *)
Definition class_members : list string :=
  ["DEFAULT_REQUEST_LOG_FORMAT"; "DEFAULT_RESPONSE_LOG_FORMAT"; "__init__";
   "log_request"; "log_response"; "basic_logging"; "send_message";
   "validate_response"; "send"; "notify"; "request"; "__getattr__"].

Definition instance_members : list string :=
  ["trim_log_values"; "validate_against_schema"; "id_generator"].

(** What the class statement and [ABCMeta] put in the class besides its
    body: the docstring of lines 20 to 24 is [__doc__]. *)
Definition class_statement_members : list string :=
  ["__module__"; "__doc__"; "__dict__"; "__weakref__"; "__abstractmethods__"].

(** What every instance has from [object]. *)
Definition object_members : list string :=
  ["__class__"; "__delattr__"; "__dir__"; "__doc__"; "__eq__"; "__format__";
   "__ge__"; "__getattribute__"; "__gt__"; "__hash__"; "__init__"; "__le__";
   "__lt__"; "__ne__"; "__new__"; "__reduce__"; "__reduce_ex__"; "__repr__";
   "__setattr__"; "__sizeof__"; "__str__"; "__subclasshook__"].

(** Names that normal lookup finds on some versions of Python only: later
    additions to [object] and to the class statement, and the bookkeeping
    of [ABCMeta]. *)
Definition version_members : list string :=
  ["__init_subclass__"; "__getstate__"; "__annotations__"; "__qualname__";
   "__firstlineno__"; "__static_attributes__"; "__type_params__";
   "_abc_impl"; "_abc_registry"; "_abc_cache"; "_abc_negative_cache";
   "_abc_negative_cache_version"].

(** The names normal lookup finds on every Python: those of the instance,
    of the class and its subclass ([subclass_members] holds what the
    subclass adds, on the class or on the instance), and of [object]. *)
Definition resolved (name : string) : bool :=
  existsb (String.eqb name)
    (instance_members ++ class_members ++ class_statement_members
       ++ object_members ++ subclass_members)%list.

Definition version_dependent (name : string) : bool :=
  existsb (String.eqb name) version_members.

(** A name normal lookup finds, or may find. *)
Definition defined_member (name : string) : bool :=
  resolved name || version_dependent name.

(** Python looks the name up on the instance and its class first and
    calls [__getattr__] only when that fails. *)
Definition getattr (self : Client) (name : string) : attribute :=
  match self_attr self name with
  | Some v => Value v
  | None =>
      if String.eqb name "DEFAULT_REQUEST_LOG_FORMAT" then Value (PStr DEFAULT_REQUEST_LOG_FORMAT)
      else if String.eqb name "DEFAULT_RESPONSE_LOG_FORMAT" then Value (PStr DEFAULT_RESPONSE_LOG_FORMAT)
      else if resolved name then Member name
      else if version_dependent name then Unsettled name
      else Callable (__getattr__ self name)
  end.

End ClientMethods.

(** ** Transports used in the examples *)

(** A transport that stores a fresh [Response] holding [reply] and hands
    back its reference; [validate_response] is the base class's. *)
Definition fresh_ref (w : world) : nat := fresh (dom (heap w)).

Definition reply_with (reply : string) : Transport :=
  {| send_message := fun self request_text options w =>
       let r := fresh_ref w in
       (Ok r,
        set_heap (<[r := {| text := reply; raw_response := PNone;
                            data := None; attrs := ∅ |}]> (heap w)) w);
     validate_response := validate_response_base;
     subclass_members := [] |}.

(** A transport whose [send_message] raises. *)
Definition unreachable (msg : string) : Transport :=
  {| send_message := fun self request_text options w => (Raise (TransportError msg), w);
     validate_response := validate_response_base;
     subclass_members := [] |}.

(** A transport that gets a reply and whose [validate_response] rejects
    it, as an HTTP client does on a status that is not 2xx. *)
Definition rejecting (reply : string) : Transport :=
  {| send_message := @send_message (reply_with reply);
     validate_response := fun self response w => (Raise (OtherError "ReceivedNon2xxResponseError" "404"), w);
     subclass_members := [] |}.

Definition empty_world : world := {| heap := ∅; iters := ∅; default_id := 1 |}.

Definition default_client : Client :=
  {| trim_log_values := PBool false;
     validate_against_schema := PBool true;
     id_generator := PNone |}.

(** ** Values of the concrete runs *)

Definition ping_request : pyval :=
  PDict [("jsonrpc", PStr "2.0"); ("method", PStr "ping"); ("id", PInt 1)].
Definition ping_text : string := qq "{'jsonrpc': '2.0', 'method': 'ping', 'id': 1}".
Definition pong_text : string := qq "{'jsonrpc': '2.0', 'result': 'pong', 'id': 1}".
Definition pong_payload : pyval :=
  PDict [("jsonrpc", PStr "2.0"); ("result", PStr "pong"); ("id", PInt 1)].

(** The response [reply_with] stores, and the store that holds only it. *)
Definition received (reply : string) : Response :=
  {| text := reply; raw_response := PNone; data := None; attrs := ∅ |}.

Definition world_with (o : Response) : world :=
  {| heap := {[ 0%nat := o ]}; iters := ∅; default_id := 1 |}.

(** A store with one iterator, at reference 7, that counts from 100. *)
Definition from_100 : iterator :=
  {| items := fun n => Some (PInt (100 + Z.of_nat n)); pos := 0 |}.

Definition world_with_generator : world :=
  {| heap := ∅; iters := {[ 7%nat := from_100 ]}; default_id := 1 |}.

(** ** What a run shows

  The calls a run records, sorted out. *)

(** The two log records of a round trip. *)
Definition logged_request (message : string) (trim : pyval) : event :=
  EvLog request_log "info" message trim [].
Definition logged_response (message : string) (trim : pyval) : event :=
  EvLog response_log "info" message trim [].

Definition is_set_data (e : event) : bool :=
  match e with
  | EvSetData _ _ => true
  | _ => false
  end.

(** The assignments to [data] among the recorded calls. *)
Definition writes (tr : list event) : list event := List.filter is_set_data tr.

Definition is_send_message (e : event) : bool :=
  match e with
  | EvSendMessage _ _ => true
  | _ => false
  end.

Definition trace_of {A} (m : M A) (w : world) : list event := snd (m w).

(** The calls to [send_message] among the recorded calls. *)
Definition sends (tr : list event) : list event := List.filter is_send_message tr.


Section Reach.

Context {T : Transport}.

(** [hooks_reach self w w']: [w'] is the store [w] as the hooks of one
  round trip left it, at whichever point the round trip stood. *)
Inductive hooks_reach (self : Client) (w : world) : world -> Prop :=
| reach_start : hooks_reach self w w
| reach_sent request_text options r w1 :
  send_message self request_text options w = (r, w1) ->
  hooks_reach self w w1
| reach_validated request_text options response w1 r w2 :
  send_message self request_text options w = (Ok response, w1) ->
  validate_response self response w1 = (r, w2) ->
  hooks_reach self w w2.

End Reach.

(** ** Notions for the further properties *)

(** The six calls of a complete round trip of [send], in order. *)
Definition round_trip (request_text : string) (trim : pyval) (options : kwargs)
    (logged_text : string) (response : nat) (parsed_text : string)
    (validate d : pyval) : list event :=
  [logged_request request_text trim;
   EvSendMessage request_text options;
   logged_response logged_text trim;
   EvValidateResponse response;
   EvParse parsed_text validate;
   EvSetData response d].

(** A recorded call made with the given flags: a log record is at level
    info, on one of the two loggers, with that [trim] and nothing more; a
    call to [parse] has that [validate]. *)
Definition uses_flags (trim validate : pyval) (ev : event) : Prop :=
  match ev with
  | EvLog logger level _ t extra =>
      (logger = request_log \/ logger = response_log) /\
      level = "info" /\ t = trim /\ extra = []
  | EvParse _ v => v = validate
  | _ => True
  end.

(** The state of the id generators: the iterators and the next id of the
    builder's own generator. *)
Definition generators (w : world) : gmap nat iterator * Z := (iters w, default_id w).

(** A transport whose hooks leave the id generators alone. *)
Class KeepsGenerators (T : Transport) : Prop := {
  send_message_keeps self request_text options w :
    generators (snd (send_message self request_text options w)) = generators w;
  validate_response_keeps self response w :
    generators (snd (validate_response self response w)) = generators w
}.

(** The formats of the handlers a run adds to a logger, in order. *)
Fixpoint handlers_on (logger : string) (tr : list event) : list string :=
  match tr with
  | [] => []
  | EvAddHandler l format :: rest =>
      if String.eqb l logger then format :: handlers_on logger rest
      else handlers_on logger rest
  | _ :: rest => handlers_on logger rest
  end.

(** Clients constructed one after the other, each from the arguments of
    its [__init__]. *)
Fixpoint construct_all (l : list (pyval * pyval * pyval * bool)) : M (list Client) :=
  match l with
  | [] => mret []
  | (t, v, g, b) :: rest =>
      c ← __init__ t v g b;
      cs ← construct_all rest;
      mret (c :: cs)
  end.

Definition wants_logging (a : pyval * pyval * pyval * bool) : bool := snd a.

Definition client_of (a : pyval * pyval * pyval * bool) : Client :=
  {| trim_log_values := fst (fst (fst a));
     validate_against_schema := snd (fst (fst a));
     id_generator := snd (fst a) |}.

(** An iterator that has nothing left, and a store that holds it at
    reference 7. *)
Definition exhausted : iterator := {| items := fun _ => None; pos := 0 |}.

Definition world_with_exhausted : world :=
  {| heap := ∅; iters := {[ 7%nat := exhausted ]}; default_id := 1 |}.

(** Collaborators with the same [parse] and a serializer that refuses
    everything. *)
Definition no_serializer : Collaborators :=
  {| json_dumps := fun _ => Raise (TypeError "no serializer");
     parse := Parse.parse (fun _ => Ok tt) |}.

(** A client whose own id generator is the iterator at reference 7. *)
Definition client_with_generator : Client :=
  {| trim_log_values := PBool false;
     validate_against_schema := PBool true;
     id_generator := PRef 7 |}.

(** * Properties *)

(** ** The JSON text of the examples *)

Example dumps_ping :
  Json.dumps (PDict [("jsonrpc", PStr "2.0"); ("method", PStr "ping"); ("id", PInt 1)])
  = Ok (qq "{'jsonrpc': '2.0', 'method': 'ping', 'id': 1}").
Proof. vm_compute. reflexivity. Qed.

Example loads_pong :
  Json.loads (qq "{'jsonrpc': '2.0', 'result': ['pong', -12, null], 'id': 1}")
  = Json.Decoded (PDict [("jsonrpc", PStr "2.0");
                         ("result", PList [PStr "pong"; PInt (-12); PNone]);
                         ("id", PInt 1)]).
Proof. vm_compute. reflexivity. Qed.

Example dumps_escapes :
  Json.dumps (PList [PStr "a\b"; PInt (-12); PBool true; PNone; PDict []])
  = Ok (qq "['a\\b', -12, true, null, {}]").
Proof. vm_compute. reflexivity. Qed.

Example dumps_iterator : Json.dumps (PList [PInt 1; PRef 7])
  = Raise (TypeError "Object is not JSON serializable").
Proof. vm_compute. reflexivity. Qed.

Example loads_empty : Json.loads EmptyString = Json.Malformed.
Proof. vm_compute. reflexivity. Qed.

Example loads_float : Json.loads "[1.5]" = Json.Unmodelled.
Proof. vm_compute. reflexivity. Qed.

Example loads_trailing : Json.loads "[1,]" = Json.Malformed.
Proof. vm_compute. reflexivity. Qed.

(** ** One round trip *)

Example send_text_example :
  @send python_collaborators
        (reply_with (qq "{'jsonrpc': '2.0', 'result': 'pong', 'id': 1}"))
        default_client (PStr (qq "{'jsonrpc': '2.0', 'method': 'ping', 'id': 1}")) []
        empty_world
  = (Ok 0%nat,
     {| heap := {[ 0%nat := {| text := qq "{'jsonrpc': '2.0', 'result': 'pong', 'id': 1}";
                               raw_response := PNone;
                               data := Some (PDict [("jsonrpc", PStr "2.0");
                                                    ("result", PStr "pong");
                                                    ("id", PInt 1)]);
                               attrs := ∅ |} ]};
        iters := ∅; default_id := 1 |},
     [EvLog request_log "info" (qq "{'jsonrpc': '2.0', 'method': 'ping', 'id': 1}") (PBool false) [];
      EvSendMessage (qq "{'jsonrpc': '2.0', 'method': 'ping', 'id': 1}") [];
      EvLog response_log "info" (qq "{'jsonrpc': '2.0', 'result': 'pong', 'id': 1}") (PBool false) [];
      EvValidateResponse 0;
      EvParse (qq "{'jsonrpc': '2.0', 'result': 'pong', 'id': 1}") (PBool true);
      EvSetData 0 (PDict [("jsonrpc", PStr "2.0"); ("result", PStr "pong"); ("id", PInt 1)])]).
Proof. vm_compute. reflexivity. Qed.

(** [request("cat", name="Yoko")] against a transport that answers
    meow: the text sent, and the decoded payload in [data]. *)
Example request_cat :
  let run := @request python_collaborators
               (reply_with (qq "{'jsonrpc': '2.0', 'result': 'meow', 'id': 1}"))
               default_client "cat" [] [("name", PStr "Yoko")] empty_world in
  fst (fst run) = Ok 0%nat /\
  sends (snd run)
  = [EvSendMessage
       (qq "{'jsonrpc': '2.0', 'method': 'cat', 'params': {'name': 'Yoko'}, 'id': 1}") []] /\
  data <$> heap (snd (fst run)) !! 0%nat
  = Some (Some (PDict [("jsonrpc", PStr "2.0"); ("result", PStr "meow"); ("id", PInt 1)])).
Proof. vm_compute. repeat split; reflexivity. Qed.

(** Two requests in a row draw the ids 1 and 2 from the builder's own
    generator. *)
Example request_twice :
  sends (trace_of (@request python_collaborators (reply_with pong_text)
                            default_client "a" [] [];;
                   @request python_collaborators (reply_with pong_text)
                            default_client "b" [PInt 3] [])
                  empty_world)
  = [EvSendMessage (qq "{'jsonrpc': '2.0', 'method': 'a', 'id': 1}") [];
     EvSendMessage (qq "{'jsonrpc': '2.0', 'method': 'b', 'params': [3], 'id': 2}") []].
Proof. vm_compute. reflexivity. Qed.

(** Positional and keyword arguments together are refused by the builder,
    before anything is sent or logged. *)
Example notify_both_kinds :
  @notify python_collaborators (reply_with pong_text) default_client "m"
          [PInt 1] [("x", PInt 2)] empty_world
  = (Raise ArgumentError, empty_world, []).
Proof. vm_compute. reflexivity. Qed.

(** [notify] does not take [id_generator] for itself: it is a keyword
    param, and an iterator is not serializable. *)
Example notify_id_generator :
  @notify python_collaborators (reply_with pong_text) default_client "m"
          [] [("id_generator", PRef 7)] world_with_generator
  = (Raise (TypeError "Object is not JSON serializable"), world_with_generator, []).
Proof. vm_compute. reflexivity. Qed.

Section Properties.

Context {K : Collaborators} {T : Transport}.

(** ** How a run of [send_body] unfolds

    One equation for all paths: each hook is asked in turn and the first
    failure ends the run. *)
Lemma send_body_run self request trim validate options w :
  send_body self request trim validate options w =
  match request_text_of request with
  | Raise e => (Raise e, w, [])
  | Ok request_text =>
      let sent := [logged_request request_text trim;
                   EvSendMessage request_text options] in
      match send_message self request_text options w with
      | (Raise e, w1) => (Raise e, w1, sent)
      | (Ok response, w1) =>
          match heap w1 !! response with
          | None => (Raise (Dangling response), w1, sent)
          | Some o1 =>
              let received := (sent ++ [logged_response (text o1) trim;
                                        EvValidateResponse response])%list in
              match validate_response self response w1 with
              | (Raise e, w2) => (Raise e, w2, received)
              | (Ok _, w2) =>
                  match heap w2 !! response with
                  | None => (Raise (Dangling response), w2, received)
                  | Some o2 =>
                      match parse (text o2) validate with
                      | Raise e =>
                          (Raise e, w2, (received ++ [EvParse (text o2) validate])%list)
                      | Ok d =>
                          (Ok response,
                           set_heap (<[response := with_data d o2]> (heap w2)) w2,
                           (received ++ [EvParse (text o2) validate;
                                         EvSetData response d])%list)
                      end
                  end
              end
          end
      end
  end.
Proof.
  unfold send_body, log_request, log_response, log_, get_response, set_data,
    apply_self, mbind, M_bind, mret, M_ret, lift, emit, hook,
    logged_request, logged_response.
  simpl.
  destruct (request_text_of request) as [request_text|e]; [|reflexivity].
  destruct (send_message self request_text options w) as [[response|e] w1];
    [|reflexivity].
  simpl.
  destruct (heap w1 !! response) as [o1|]; [|reflexivity].
  simpl.
  destruct (validate_response self response w1) as [[[]|e] w2]; [|reflexivity].
  simpl.
  destruct (heap w2 !! response) as [o2|] eqn:Hlook; [|reflexivity].
  simpl.
  destruct (parse (text o2) validate) as [d|e]; [|reflexivity].
  simpl. rewrite Hlook. reflexivity.
Qed.

(** [send] is its body once the call is bound. *)
Lemma send_bound self request kw :
  rebinds ["self"; "request"] kw = false ->
  send self request kw =
  send_body self request
    (apply_self self "trim_log_values" (PBool false) kw)
    (apply_self self "validate_against_schema" (PBool true) kw)
    (kw_without ["trim_log_values"; "validate_against_schema"] kw).
Proof. intros Hb. unfold send. rewrite Hb. reflexivity. Qed.

(** ** The round trip of [send] *)


(** C5. An exception raised by [send_message], by [validate_response]
    or by [parse] is the outcome of [send], unchanged; the run stops at
    the call that raised (nothing is recorded after it) and
    [send_message] has been called once. *)
Theorem send_propagates self request kw w request_text :
  let trim := apply_self self "trim_log_values" (PBool false) kw in
  let validate := apply_self self "validate_against_schema" (PBool true) kw in
  let options := kw_without ["trim_log_values"; "validate_against_schema"] kw in
  rebinds ["self"; "request"] kw = false ->
  request_text_of request = Ok request_text ->
  (forall e w1,
      send_message self request_text options w = (Raise e, w1) ->
      send self request kw w =
        (Raise e, w1,
         [logged_request request_text trim; EvSendMessage request_text options]))
  /\
  (forall response w1 o1 e w2,
      send_message self request_text options w = (Ok response, w1) ->
      heap w1 !! response = Some o1 ->
      validate_response self response w1 = (Raise e, w2) ->
      send self request kw w =
        (Raise e, w2,
         [logged_request request_text trim; EvSendMessage request_text options;
          logged_response (text o1) trim; EvValidateResponse response]))
  /\
  (forall response w1 o1 w2 o2 e,
      send_message self request_text options w = (Ok response, w1) ->
      heap w1 !! response = Some o1 ->
      validate_response self response w1 = (Ok tt, w2) ->
      heap w2 !! response = Some o2 ->
      parse (text o2) validate = Raise e ->
      send self request kw w =
        (Raise e, w2,
         [logged_request request_text trim; EvSendMessage request_text options;
          logged_response (text o1) trim; EvValidateResponse response;
          EvParse (text o2) validate])).
Proof.
  intros trim validate options Hbound Hnorm.
  rewrite (send_bound _ _ _ Hbound), send_body_run.
  fold trim validate options. rewrite Hnorm. cbv zeta.
  split; [|split].
  - intros e w1 ->. reflexivity.
  - intros response w1 o1 e w2 -> -> ->. reflexivity.
  - intros response w1 o1 w2 o2 e -> -> -> -> ->. reflexivity.
Qed.

(** C6. When a [send] fails, whatever the step, it has assigned no
    [data] and the store is as the hooks left it.  When it succeeds it
    has assigned [data] once, as its last step, right after the call to
    [parse] whose result it assigns. *)
Theorem send_writes_data_once self request kw w :
  match send self request kw w with
  | (Raise e, w', tr) => writes tr = [] /\ hooks_reach self w w'
  | (Ok response, w', tr) =>
      exists pre o d w2 v,
        tr = (pre ++ [EvParse (text o) v; EvSetData response d])%list /\
        writes pre = [] /\
        writes tr = [EvSetData response d] /\
        parse (text o) v = Ok d /\
        hooks_reach self w w2 /\
        heap w2 !! response = Some o /\
        w' = set_heap (<[response := with_data d o]> (heap w2)) w2
  end.
Proof.
  unfold send.
  destruct (rebinds ["self"; "request"] kw).
  { split; [reflexivity | constructor]. }
  rewrite send_body_run.
  set (trim := apply_self self "trim_log_values" (PBool false) kw).
  set (validate := apply_self self "validate_against_schema" (PBool true) kw).
  set (options := kw_without _ kw).
  case_eq (request_text_of request); [intros request_text _ | intros e _].
  2: { split; [reflexivity | constructor]. }
  cbv zeta.
  case_eq (send_message self request_text options w).
  intros [response|e] w1 Hsend.
  2: { split; [reflexivity | econstructor 2; exact Hsend]. }
  case_eq (heap w1 !! response); [intros o1 _|intros _].
  2: { split; [reflexivity | econstructor 2; exact Hsend]. }
  case_eq (validate_response self response w1).
  intros [[]|e] w2 Hval.
  2: { split; [reflexivity | econstructor 3; eassumption]. }
  case_eq (heap w2 !! response); [intros o2 Ho2|intros _].
  2: { split; [reflexivity | econstructor 3; eassumption]. }
  case_eq (parse (text o2) validate); [intros d Hparse|intros e _].
  2: { split; [reflexivity | econstructor 3; eassumption]. }
  exists [logged_request request_text trim; EvSendMessage request_text options;
          logged_response (text o1) trim; EvValidateResponse response],
         o2, d, w2, validate.
  repeat split; try reflexivity; try assumption.
  econstructor 3; eassumption.
Qed.

(** C9. The response a successful [send] returns is the object
    [send_message] returned, and [send] has changed nothing but its
    [data]: its [text], its [raw_response] and its other attributes are
    what the transport's hooks left, as are all other objects of the
    store. *)
Theorem send_frame self request kw w response w' tr :
  send self request kw w = (Ok response, w', tr) ->
  exists request_text w1 w2 o d,
    send_message self request_text
      (kw_without ["trim_log_values"; "validate_against_schema"] kw) w
      = (Ok response, w1) /\
    validate_response self response w1 = (Ok tt, w2) /\
    heap w2 !! response = Some o /\
    (exists o', heap w' !! response = Some o' /\
                data o' = Some d /\
                text o' = text o /\
                raw_response o' = raw_response o /\
                attrs o' = attrs o) /\
    (forall r, r <> response -> heap w' !! r = heap w2 !! r) /\
    iters w' = iters w2 /\
    default_id w' = default_id w2.
Proof.
  unfold send.
  destruct (rebinds ["self"; "request"] kw); [discriminate|].
  rewrite send_body_run.
  destruct (request_text_of request) as [request_text|]; [|discriminate].
  cbv zeta.
  destruct (send_message self request_text _ w) as [[response0|] w1] eqn:Hsend;
    [|discriminate].
  destruct (heap w1 !! response0) as [o1|]; [|discriminate].
  destruct (validate_response self response0 w1) as [[[]|] w2] eqn:Hval;
    [|discriminate].
  destruct (heap w2 !! response0) as [o2|] eqn:Ho2; [|discriminate].
  destruct (parse (text o2) _) as [d|]; [|discriminate].
  intros Hrun. inversion Hrun; subst response0 w' tr; clear Hrun.
  exists request_text, w1, w2, o2, d.
  split; [exact Hsend|]. split; [exact Hval|]. split; [exact Ho2|].
  split.
  - exists (with_data d o2). simpl. rewrite lookup_insert_eq. auto.
  - split; [|split; reflexivity].
    intros r Hr. simpl. apply lookup_insert_ne. congruence.
Qed.

(** ** Keyword arguments *)

Lemma kw_has_without name names kw :
  In name names -> kw_has name (kw_without names kw) = false.
Proof.
  intros Hin. unfold kw_has.
  induction kw as [|[k v] kw IH]; simpl; [reflexivity|].
  destruct (existsb (String.eqb k) names) eqn:Hk; simpl; [exact IH|].
  destruct (String.eqb k name) eqn:Hkn; [|exact IH].
  apply String.eqb_eq in Hkn. subst k.
  assert (existsb (String.eqb name) names = true) as Hex.
  { apply existsb_exists. exists name. split; [exact Hin|apply String.eqb_refl]. }
  congruence.
Qed.

(** [send] calls [send_message] once it has the text of the request, and
    then once, with that text and with the keyword arguments that are not
    its own flags. *)
Lemma send_sends self request kw w :
  sends (trace_of (send self request kw) w) =
  if rebinds ["self"; "request"] kw then []
  else match request_text_of request with
       | Ok request_text =>
           [EvSendMessage request_text
              (kw_without ["trim_log_values"; "validate_against_schema"] kw)]
       | Raise _ => []
       end.
Proof.
  unfold trace_of, send.
  destruct (rebinds ["self"; "request"] kw); [reflexivity|].
  rewrite send_body_run.
  destruct (request_text_of request) as [request_text|]; [|reflexivity].
  cbv zeta.
  destruct (send_message self request_text _ w) as [[response|] w1]; [|reflexivity].
  destruct (heap w1 !! response); [|reflexivity].
  destruct (validate_response self response w1) as [[[]|] w2]; [|reflexivity].
  destruct (heap w2 !! response) as [o2|]; [|reflexivity].
  destruct (parse (text o2) _); reflexivity.
Qed.

(** ** [notify] and [request] as calls to [send] *)

Lemma notify_run self method_name args kw w :
  rebinds ["self"; "method_name"] kw = false ->
  notify self method_name args kw w =
  match Notification method_name args
          (kw_without ["trim_log_values"; "validate_against_schema"] kw) with
  | Raise e => (Raise e, w, [])
  | Ok n =>
      send self n
        [("trim_log_values", apply_self self "trim_log_values" PNone kw);
         ("validate_against_schema", apply_self self "validate_against_schema" PNone kw)]
        w
  end.
Proof.
  intros Hbound. unfold notify. rewrite Hbound.
  unfold mbind, M_bind, lift.
  destruct (Notification method_name args _) as [n|e]; [|reflexivity].
  destruct (send self n _ w) as [[r w'] tr]. reflexivity.
Qed.

Lemma request_run self method_name args kw w :
  rebinds ["self"; "method_name"] kw = false ->
  request self method_name args kw w =
  match build_params args
          (kw_without ["trim_log_values"; "validate_against_schema"; "id_generator"] kw) with
  | Raise e => (Raise e, w, [])
  | Ok params =>
      match next_id (apply_self self "id_generator" PNone kw) w with
      | (Raise e, w1, _) => (Raise e, w1, [])
      | (Ok i, w1, _) =>
          send self
            (PDict ([("jsonrpc", PStr "2.0"); ("method", PStr method_name)]
                      ++ params ++ [("id", i)])%list)
            [("trim_log_values", apply_self self "trim_log_values" (PBool false) kw);
             ("validate_against_schema",
               apply_self self "validate_against_schema" (PBool true) kw)]
            w1
      end
  end.
Proof.
  intros Hbound. unfold request. rewrite Hbound.
  unfold Request, mbind, M_bind, mret, M_ret, lift.
  destruct (build_params args _) as [params|e]; [|reflexivity].
  unfold next_id.
  destruct (apply_self self "id_generator" PNone kw) as [| | | | | |g];
    try reflexivity.
  - simpl. destruct (send self _ _ _) as [[r w'] tr]. reflexivity.
  - destruct (iters w !! g) as [it|]; [|reflexivity].
    destruct (items it (pos it)) as [v|]; [|reflexivity].
    simpl. destruct (send self _ _ _) as [[r w'] tr]. reflexivity.
Qed.

Lemma sent_by_send self request kw w request_text options :
  In (EvSendMessage request_text options) (trace_of (send self request kw) w) ->
  request_text_of request = Ok request_text /\
  options = kw_without ["trim_log_values"; "validate_against_schema"] kw /\
  sends (trace_of (send self request kw) w) = [EvSendMessage request_text options].
Proof.
  intros Hin.
  assert (In (EvSendMessage request_text options)
             (sends (trace_of (send self request kw) w))) as Hsent.
  { apply filter_In. split; [exact Hin|reflexivity]. }
  rewrite send_sends in *.
  destruct (rebinds ["self"; "request"] kw); [destruct Hsent|].
  destruct (request_text_of request) as [t|]; [|destruct Hsent].
  destruct Hsent as [Heq|[]]. inversion Heq; subst. auto.
Qed.

(** ** [notify] and [request] *)


(** [__init__] cannot fail; the client it gives holds its three arguments
    and the store is untouched. *)
Lemma init_run t v g b w :
  exists tr,
    __init__ t v g b w
    = (Ok {| trim_log_values := t; validate_against_schema := v; id_generator := g |},
       w, tr).
Proof. destruct b; eexists; reflexivity. Qed.

(** C8. [request] builds a [Request] whose id is drawn from the
    [id_generator] of the call when the call gives one, and from the
    client's own, the one [__init__] was given, when it does not, and
    hands the [Request] to [send]. *)
Theorem request_builds_with_generator self method_name args kw w :
  let generator := match kw_get "id_generator" kw with
                   | Some g => g
                   | None => id_generator self
                   end in
  let kwargs :=
    kw_without ["trim_log_values"; "validate_against_schema"; "id_generator"] kw in
  let flags :=
    [("trim_log_values", apply_self self "trim_log_values" (PBool false) kw);
     ("validate_against_schema",
       apply_self self "validate_against_schema" (PBool true) kw)] in
  rebinds ["self"; "method_name"] kw = false ->
  request self method_name args kw w
    = (r ← Request method_name args generator kwargs; send self r flags) w
  /\
  (forall t v g b w0 w0' tr,
      __init__ t v g b w0 = (Ok self, w0', tr) ->
      kw_get "id_generator" kw = None ->
      generator = g)
  /\
  (forall params i w1,
      build_params args kwargs = Ok params ->
      next_id generator w = (Ok i, w1, []) ->
      request self method_name args kw w =
        send self
          (PDict ([("jsonrpc", PStr "2.0"); ("method", PStr method_name)]
                    ++ params ++ [("id", i)])%list)
          flags w1).
Proof.
  intros generator kwargs flags Hbound.
  assert (apply_self self "id_generator" PNone kw = generator) as Hgen.
  { unfold apply_self, generator. destruct (kw_get "id_generator" kw); reflexivity. }
  split; [|split].
  - unfold request. rewrite Hbound, Hgen. reflexivity.
  - intros t v g b w0 w0' tr Hinit Hnone.
    unfold generator. rewrite Hnone.
    destruct (init_run t v g b w0) as (tr' & Hrun).
    rewrite Hrun in Hinit. inversion Hinit. reflexivity.
  - intros params i w1 Hparams Hnext.
    rewrite (request_run _ _ _ _ _ Hbound), Hgen.
    fold kwargs. rewrite Hparams, Hnext. reflexivity.
Qed.

(** The keyword params of a message are the keyword arguments the builder
    was given. *)
Lemma build_params_keywords args kw params p :
  build_params args kw = Ok params ->
  kw_get "params" params = Some (PDict p) ->
  p = kw.
Proof.
  unfold build_params.
  destruct args as [|a args], kw as [|kv kw]; intros Hb Hp;
    inversion Hb; subst; simpl in Hp; congruence.
Qed.

(** C10. Whatever text [notify] or [request] hands to [send_message],
    it is the serialization of a message whose params are built from the
    keyword arguments less those named [trim_log_values] and
    [validate_against_schema], and for [request] less [id_generator] too:
    keyword params of the message have no key of these names, the client
    takes the keyword arguments so named for itself. *)
Theorem config_keywords_are_not_params self method_name args kw w request_text options :
  (In (EvSendMessage request_text options)
      (trace_of (notify self method_name args kw) w) ->
   exists params,
     build_params args (kw_without ["trim_log_values"; "validate_against_schema"] kw)
       = Ok params /\
     json_dumps (PDict ([("jsonrpc", PStr "2.0"); ("method", PStr method_name)]
                          ++ params)%list) = Ok request_text /\
     forall p, kw_get "params" params = Some (PDict p) ->
               kw_has "trim_log_values" p = false /\
               kw_has "validate_against_schema" p = false)
  /\
  (In (EvSendMessage request_text options)
      (trace_of (request self method_name args kw) w) ->
   exists params i,
     build_params args
       (kw_without ["trim_log_values"; "validate_against_schema"; "id_generator"] kw)
       = Ok params /\
     json_dumps (PDict ([("jsonrpc", PStr "2.0"); ("method", PStr method_name)]
                          ++ params ++ [("id", i)])%list) = Ok request_text /\
     forall p, kw_get "params" params = Some (PDict p) ->
               kw_has "trim_log_values" p = false /\
               kw_has "validate_against_schema" p = false /\
               kw_has "id_generator" p = false).
Proof.
  split; unfold trace_of.
  - destruct (rebinds ["self"; "method_name"] kw) eqn:Hbound.
    { unfold notify. rewrite Hbound. intros []. }
    rewrite (notify_run _ _ _ _ _ Hbound). unfold Notification.
    destruct (build_params args _) as [params|e] eqn:Hparams; simpl; [|intros []].
    intros Hin. apply sent_by_send in Hin. destruct Hin as (Htext & _ & _).
    exists params. split; [reflexivity|]. split; [exact Htext|].
    intros p Hp. rewrite (build_params_keywords _ _ _ _ Hparams Hp).
    split; apply kw_has_without; simpl; auto.
  - destruct (rebinds ["self"; "method_name"] kw) eqn:Hbound.
    { unfold request. rewrite Hbound. intros []. }
    rewrite (request_run _ _ _ _ _ Hbound).
    destruct (build_params args _) as [params|e] eqn:Hparams; [|intros []].
    destruct (next_id _ w) as [[[i|e] w1] t1]; [|intros []].
    intros Hin. apply sent_by_send in Hin. destruct Hin as (Htext & _ & _).
    exists params, i. split; [reflexivity|]. split; [exact Htext|].
    intros p Hp. rewrite (build_params_keywords _ _ _ _ Hparams Hp).
    repeat split; apply kw_has_without; simpl; auto.
Qed.

(** C4 as the code has it. [send] hands [send_message] the keyword
    arguments of the call that are not its two flags, unchanged and in
    one call.  [notify] and [request] hand it none: their keyword
    arguments are the params of the message. *)
Theorem options_pass_through self message method_name args kw w request_text options :
  (In (EvSendMessage request_text options) (trace_of (send self message kw) w) ->
   options = kw_without ["trim_log_values"; "validate_against_schema"] kw /\
   sends (trace_of (send self message kw) w) = [EvSendMessage request_text options])
  /\
  (In (EvSendMessage request_text options)
      (trace_of (notify self method_name args kw) w) ->
   options = [])
  /\
  (In (EvSendMessage request_text options)
      (trace_of (request self method_name args kw) w) ->
   options = []).
Proof.
  split; [|split].
  - intros Hin. apply sent_by_send in Hin. tauto.
  - unfold trace_of.
    destruct (rebinds ["self"; "method_name"] kw) eqn:Hbound.
    { unfold notify. rewrite Hbound. intros []. }
    rewrite (notify_run _ _ _ _ _ Hbound).
    destruct (Notification method_name args _) as [n|e]; [|intros []].
    intros Hin. apply sent_by_send in Hin. destruct Hin as (_ & Hopt & _).
    exact Hopt.
  - unfold trace_of.
    destruct (rebinds ["self"; "method_name"] kw) eqn:Hbound.
    { unfold request. rewrite Hbound. intros []. }
    rewrite (request_run _ _ _ _ _ Hbound).
    destruct (build_params args _) as [params|e]; [|intros []].
    destruct (next_id _ w) as [[[i|e] w1] t1]; [|intros []].
    intros Hin. apply sent_by_send in Hin. destruct Hin as (_ & Hopt & _).
    exact Hopt.
Qed.

(** ** Attribute access *)

(** C2. For every name that is not a defined member (normal lookup does
    not find it on the instance, the class, its subclass or [object], on
    any version of Python), attribute access gives a callable (it cannot
    raise), and calling it with any arguments is the call of [request]
    with that name and those arguments. *)
Theorem getattr_unknown_forwards_to_request self name :
  defined_member name = false ->
  exists f, getattr self name = Callable f /\
            forall args kw, f args kw = request self name args kw.
Proof.
  intros Hundef. unfold defined_member in Hundef.
  apply orb_false_iff in Hundef. destruct Hundef as [Hres Hver].
  assert (forall x, In x (instance_members ++ class_members)%list ->
                    String.eqb name x = false) as Hne.
  { intros x Hx. unfold resolved in Hres.
    destruct (String.eqb name x) eqn:Hnx; [|reflexivity].
    rewrite <- Hres. symmetry. apply existsb_exists.
    exists x. split; [|exact Hnx].
    rewrite app_assoc. apply in_or_app. left. exact Hx. }
  exists (attr_handler self name). split; [|reflexivity].
  unfold getattr, self_attr.
  rewrite (Hne "trim_log_values"), (Hne "validate_against_schema"),
    (Hne "id_generator"), (Hne "DEFAULT_REQUEST_LOG_FORMAT"),
    (Hne "DEFAULT_RESPONSE_LOG_FORMAT"), Hres, Hver by (simpl; tauto).
  reflexivity.
Qed.

End Properties.

(** ** A notification and an empty reply *)

Section EmptyReply.

Context {T : Transport}.

(** C3. [notify] with the method [ping] and no arguments sends the
    serialization of the message with the fields jsonrpc and method and
    no id.  When the transport answers with a response of empty text, the
    reply is not parsed as JSON: whatever the JSON decoder of [parse] is,
    also one that refuses every text, the run is the same, no
    [ParseError] is raised, and the call returns the response, its [data]
    [None]. *)
Theorem notify_ping_empty_reply (dumps : pyval -> outcome string)
    (loads : string -> Json.decoded) (schema : pyval -> outcome unit)
    self w request_text response w1 o1 w2 o2 :
  let K := {| json_dumps := dumps; parse := Parse.parse_with loads schema |} in
  let trim := trim_log_values self in
  let validate := validate_against_schema self in
  dumps (PDict [("jsonrpc", PStr "2.0"); ("method", PStr "ping")]) = Ok request_text ->
  send_message self request_text [] w = (Ok response, w1) ->
  heap w1 !! response = Some o1 ->
  text o1 = EmptyString ->
  validate_response self response w1 = (Ok tt, w2) ->
  heap w2 !! response = Some o2 ->
  text o2 = EmptyString ->
  @notify K T self "ping" [] [] w =
    (Ok response,
     set_heap (<[response := {| text := EmptyString;
                                raw_response := raw_response o2;
                                data := Some PNone;
                                attrs := attrs o2 |}]> (heap w2)) w2,
     [logged_request request_text trim;
      EvSendMessage request_text [];
      logged_response EmptyString trim;
      EvValidateResponse response;
      EvParse EmptyString validate;
      EvSetData response PNone]).
Proof.
  intros K trim validate Hdumps Hsend Ho1 Ht1 Hval Ho2 Ht2.
  rewrite notify_run by reflexivity.
  cbn [Notification build_params kw_without List.filter outcome_bind app].
  rewrite send_bound by reflexivity.
  rewrite send_body_run.
  cbn [request_text_of json_dumps K].
  rewrite Hdumps. cbv zeta.
  change (kw_without ["trim_log_values"; "validate_against_schema"] _)
    with (@nil (string * pyval)).
  rewrite Hsend, Ho1, Hval, Ho2, Ht1.
  destruct o2 as [t2 raw2 data2 attrs2]. simpl in Ht2. subst t2.
  reflexivity.
Qed.

End EmptyReply.

(** ** The theorems at concrete inputs *)


Lemma send_propagates_witness :
  @send python_collaborators (unreachable "connection refused") default_client
        (PStr ping_text) [] empty_world
  = (Raise (TransportError "connection refused"), empty_world,
     [EvLog request_log "info" ping_text (PBool false) [];
      EvSendMessage ping_text []])
  /\
  @send python_collaborators (rejecting pong_text) default_client
        (PStr ping_text) [] empty_world
  = (Raise (OtherError "ReceivedNon2xxResponseError" "404"),
     world_with (received pong_text),
     [EvLog request_log "info" ping_text (PBool false) [];
      EvSendMessage ping_text [];
      EvLog response_log "info" pong_text (PBool false) [];
      EvValidateResponse 0])
  /\
  @send python_collaborators (reply_with "<html>") default_client
        (PStr ping_text) [] empty_world
  = (Raise (ParseError "<html>"), world_with (received "<html>"),
     [EvLog request_log "info" ping_text (PBool false) [];
      EvSendMessage ping_text [];
      EvLog response_log "info" "<html>" (PBool false) [];
      EvValidateResponse 0;
      EvParse "<html>" (PBool true)]).
Proof.
  split; [|split].
  - apply (proj1 (@send_propagates python_collaborators
                    (unreachable "connection refused") default_client
                    (PStr ping_text) [] empty_world ping_text eq_refl eq_refl)).
    reflexivity.
  - apply (proj1 (proj2 (@send_propagates python_collaborators
                           (rejecting pong_text) default_client
                           (PStr ping_text) [] empty_world ping_text eq_refl eq_refl))
             0%nat (world_with (received pong_text)) (received pong_text));
      vm_compute; reflexivity.
  - apply (proj2 (proj2 (@send_propagates python_collaborators
                           (reply_with "<html>") default_client
                           (PStr ping_text) [] empty_world ping_text eq_refl eq_refl))
             0%nat (world_with (received "<html>")) (received "<html>")
             (world_with (received "<html>")) (received "<html>"));
      vm_compute; reflexivity.
Defined.

Lemma send_frame_witness :
  exists request_text w1 w2 o d,
    @send_message (reply_with pong_text) default_client request_text
      (kw_without ["trim_log_values"; "validate_against_schema"] [("timeout", PInt 3)])
      empty_world = (Ok 0%nat, w1) /\
    @validate_response (reply_with pong_text) default_client 0%nat w1 = (Ok tt, w2) /\
    heap w2 !! 0%nat = Some o /\
    (exists o',
        heap (set_heap (<[0%nat := with_data pong_payload (received pong_text)]>
                          (heap (world_with (received pong_text))))
                       (world_with (received pong_text))) !! 0%nat = Some o' /\
        data o' = Some d /\
        text o' = text o /\
        raw_response o' = raw_response o /\
        attrs o' = attrs o) /\
    (forall r, r <> 0%nat ->
               heap (set_heap (<[0%nat := with_data pong_payload (received pong_text)]>
                                 (heap (world_with (received pong_text))))
                              (world_with (received pong_text))) !! r
               = heap w2 !! r) /\
    iters (set_heap (<[0%nat := with_data pong_payload (received pong_text)]>
                       (heap (world_with (received pong_text))))
                    (world_with (received pong_text))) = iters w2 /\
    default_id (set_heap (<[0%nat := with_data pong_payload (received pong_text)]>
                            (heap (world_with (received pong_text))))
                         (world_with (received pong_text))) = default_id w2.
Proof.
  apply (@send_frame python_collaborators (reply_with pong_text) default_client
           ping_request [("timeout", PInt 3)] empty_world 0%nat _
           [EvLog request_log "info" ping_text (PBool false) [];
            EvSendMessage ping_text [("timeout", PInt 3)];
            EvLog response_log "info" pong_text (PBool false) [];
            EvValidateResponse 0;
            EvParse pong_text (PBool true);
            EvSetData 0 pong_payload]).
  vm_compute. reflexivity.
Defined.


Lemma request_builds_with_generator_witness :
  @request python_collaborators (reply_with pong_text) default_client "cat" []
           [("id_generator", PRef 7); ("name", PStr "Yoko")] world_with_generator
  = @send python_collaborators (reply_with pong_text) default_client
          (PDict [("jsonrpc", PStr "2.0"); ("method", PStr "cat");
                  ("params", PDict [("name", PStr "Yoko")]); ("id", PInt 100)])
          [("trim_log_values", PBool false); ("validate_against_schema", PBool true)]
          {| heap := ∅;
             iters := <[7%nat := {| items := items from_100; pos := 1 |}]>
                        (iters world_with_generator);
             default_id := 1 |}
  /\
  @request python_collaborators (reply_with pong_text)
           {| trim_log_values := PBool false; validate_against_schema := PBool true;
              id_generator := PRef 7 |}
           "cat" [] [("name", PStr "Yoko")] world_with_generator
  = @send python_collaborators (reply_with pong_text)
          {| trim_log_values := PBool false; validate_against_schema := PBool true;
             id_generator := PRef 7 |}
          (PDict [("jsonrpc", PStr "2.0"); ("method", PStr "cat");
                  ("params", PDict [("name", PStr "Yoko")]); ("id", PInt 100)])
          [("trim_log_values", PBool false); ("validate_against_schema", PBool true)]
          {| heap := ∅;
             iters := <[7%nat := {| items := items from_100; pos := 1 |}]>
                        (iters world_with_generator);
             default_id := 1 |}.
Proof.
  split.
  - apply (proj2 (proj2 (@request_builds_with_generator python_collaborators
                           (reply_with pong_text) default_client "cat" []
                           [("id_generator", PRef 7); ("name", PStr "Yoko")]
                           world_with_generator eq_refl))
             [("params", PDict [("name", PStr "Yoko")])] (PInt 100)); reflexivity.
  - apply (proj2 (proj2 (@request_builds_with_generator python_collaborators
                           (reply_with pong_text)
                           {| trim_log_values := PBool false;
                              validate_against_schema := PBool true;
                              id_generator := PRef 7 |}
                           "cat" [] [("name", PStr "Yoko")]
                           world_with_generator eq_refl))
             [("params", PDict [("name", PStr "Yoko")])] (PInt 100)); reflexivity.
Defined.

Lemma config_keywords_are_not_params_witness :
  exists params i,
    build_params []
      (kw_without ["trim_log_values"; "validate_against_schema"; "id_generator"]
         [("trim_log_values", PBool true); ("name", PStr "Yoko");
          ("validate_against_schema", PBool false); ("id_generator", PNone)])
      = Ok params /\
    Json.dumps (PDict ([("jsonrpc", PStr "2.0"); ("method", PStr "cat")]
                         ++ params ++ [("id", i)])%list)
    = Ok (qq "{'jsonrpc': '2.0', 'method': 'cat', 'params': {'name': 'Yoko'}, 'id': 1}") /\
    forall p, kw_get "params" params = Some (PDict p) ->
              kw_has "trim_log_values" p = false /\
              kw_has "validate_against_schema" p = false /\
              kw_has "id_generator" p = false.
Proof.
  apply (proj2 (@config_keywords_are_not_params python_collaborators
                  (reply_with pong_text) default_client "cat" []
                  [("trim_log_values", PBool true); ("name", PStr "Yoko");
                   ("validate_against_schema", PBool false); ("id_generator", PNone)]
                  empty_world
                  (qq "{'jsonrpc': '2.0', 'method': 'cat', 'params': {'name': 'Yoko'}, 'id': 1}")
                  [])).
  vm_compute. right. left. reflexivity.
Defined.

Lemma options_pass_through_witness :
  [("timeout", PInt 3)]
  = kw_without ["trim_log_values"; "validate_against_schema"]
      [("timeout", PInt 3); ("trim_log_values", PBool true)]
  /\
  sends (trace_of (@send python_collaborators (reply_with pong_text) default_client
                         (PStr ping_text)
                         [("timeout", PInt 3); ("trim_log_values", PBool true)])
                  empty_world)
  = [EvSendMessage ping_text [("timeout", PInt 3)]].
Proof.
  apply (proj1 (@options_pass_through python_collaborators (reply_with pong_text)
                  default_client (PStr ping_text) "cat" []
                  [("timeout", PInt 3); ("trim_log_values", PBool true)]
                  empty_world ping_text [("timeout", PInt 3)])).
  vm_compute. right. left. reflexivity.
Defined.

Lemma getattr_unknown_forwards_to_request_witness :
  exists f,
    @getattr python_collaborators (reply_with pong_text) default_client "cube"
    = Callable f /\
    forall args kw,
      f args kw
      = @request python_collaborators (reply_with pong_text) default_client "cube" args kw.
Proof.
  apply (@getattr_unknown_forwards_to_request python_collaborators
           (reply_with pong_text) default_client "cube").
  reflexivity.
Defined.

Lemma notify_ping_empty_reply_witness :
  @notify python_collaborators (reply_with EmptyString) default_client "ping" [] []
          empty_world
  = (Ok 0%nat,
     set_heap (<[0%nat := {| text := EmptyString; raw_response := PNone;
                             data := Some PNone; attrs := ∅ |}]>
                 (heap (world_with (received EmptyString))))
              (world_with (received EmptyString)),
     [EvLog request_log "info" (qq "{'jsonrpc': '2.0', 'method': 'ping'}") (PBool false) [];
      EvSendMessage (qq "{'jsonrpc': '2.0', 'method': 'ping'}") [];
      EvLog response_log "info" EmptyString (PBool false) [];
      EvValidateResponse 0;
      EvParse EmptyString (PBool true);
      EvSetData 0 PNone])
  /\
  @notify {| json_dumps := Json.dumps;
             parse := Parse.parse_with (fun _ => Json.Malformed) (fun _ => Ok tt) |}
          (reply_with EmptyString) default_client "ping" [] [] empty_world
  = (Ok 0%nat,
     set_heap (<[0%nat := {| text := EmptyString; raw_response := PNone;
                             data := Some PNone; attrs := ∅ |}]>
                 (heap (world_with (received EmptyString))))
              (world_with (received EmptyString)),
     [EvLog request_log "info" (qq "{'jsonrpc': '2.0', 'method': 'ping'}") (PBool false) [];
      EvSendMessage (qq "{'jsonrpc': '2.0', 'method': 'ping'}") [];
      EvLog response_log "info" EmptyString (PBool false) [];
      EvValidateResponse 0;
      EvParse EmptyString (PBool true);
      EvSetData 0 PNone]).
Proof.
  split.
  - apply (@notify_ping_empty_reply (reply_with EmptyString) Json.dumps Json.loads
             (fun _ => Ok tt) default_client empty_world
             (qq "{'jsonrpc': '2.0', 'method': 'ping'}")
             0%nat (world_with (received EmptyString)) (received EmptyString)
             (world_with (received EmptyString)) (received EmptyString));
      vm_compute; reflexivity.
  - apply (@notify_ping_empty_reply (reply_with EmptyString) Json.dumps
             (fun _ => Json.Malformed)
             (fun _ => Ok tt) default_client empty_world
             (qq "{'jsonrpc': '2.0', 'method': 'ping'}")
             0%nat (world_with (received EmptyString)) (received EmptyString)
             (world_with (received EmptyString)) (received EmptyString));
      vm_compute; reflexivity.
Defined.

(** ** Where the code departs from a claim *)

(** C4, as stated, fails: a keyword argument given to [request] as a
    transport option is not handed to [send_message]; it is a param of the
    message. *)
Lemma request_option_becomes_param :
  sends (trace_of (@request python_collaborators (reply_with pong_text)
                            default_client "cat" [] [("timeout", PInt 5)])
                  empty_world)
  = [EvSendMessage
       (qq "{'jsonrpc': '2.0', 'method': 'cat', 'params': {'timeout': 5}, 'id': 1}") []]
  /\
  ~ In (EvSendMessage
          (qq "{'jsonrpc': '2.0', 'method': 'cat', 'params': {'timeout': 5}, 'id': 1}")
          [("timeout", PInt 5)])
       (trace_of (@request python_collaborators (reply_with pong_text)
                           default_client "cat" [] [("timeout", PInt 5)])
                 empty_world).
Proof.
  split.
  - vm_compute. reflexivity.
  - vm_compute. intros H.
    repeat (destruct H as [H|H]; [discriminate H|]). exact H.
Qed.

(** * Further properties of the client *)

Section SendFurther.

Context {K : Collaborators} {T : Transport}.

(** ** A request that cannot be serialized *)

(** X1. When the request is not a string and [json.dumps] raises on it,
    [send] raises the same exception before anything else happens:
    nothing is logged, [send_message] is not called, the store is
    untouched. *)
Theorem send_unserializable self request kw w e :
  rebinds ["self"; "request"] kw = false ->
  (forall s, request <> PStr s) ->
  json_dumps request = Raise e ->
  send self request kw w = (Raise e, w, []).
Proof.
  intros Hbound Hnot Hdumps.
  rewrite (send_bound _ _ _ Hbound), send_body_run.
  assert (request_text_of request = Raise e) as ->; [|reflexivity].
  destruct request; simpl; try exact Hdumps.
  exfalso. eapply Hnot. reflexivity.
Qed.

(** ** The shape of every run *)

(** Whatever happens, the calls [send] has made are an initial segment of
    the six calls of the round trip, with the flags and options of the
    call. *)
Lemma send_trace_prefix self request kw w :
  let trim := apply_self self "trim_log_values" (PBool false) kw in
  let validate := apply_self self "validate_against_schema" (PBool true) kw in
  let options := kw_without ["trim_log_values"; "validate_against_schema"] kw in
  exists request_text logged_text response parsed_text d,
    trace_of (send self request kw) w
      `prefix_of` round_trip request_text trim options logged_text response
                             parsed_text validate d
    /\ (forall t, request_text_of request = Ok t -> request_text = t)
    /\ match fst (fst (send self request kw w)) with
       | Ok r =>
           r = response /\
           trace_of (send self request kw) w
           = round_trip request_text trim options logged_text response
                        parsed_text validate d
       | Raise _ => length (trace_of (send self request kw) w) < 6
       end%nat.
Proof.
  intros trim validate options. unfold trace_of, send.
  destruct (rebinds ["self"; "request"] kw).
  { exists (match request_text_of request with Ok t => t | Raise _ => EmptyString end),
      EmptyString, 0%nat, EmptyString, PNone. simpl.
    split; [apply prefix_nil|]. split; [|lia].
    intros t ->. reflexivity. }
  rewrite send_body_run. fold trim validate options.
  destruct (request_text_of request) as [request_text|e].
  2: { exists EmptyString, EmptyString, 0%nat, EmptyString, PNone. simpl.
       split; [apply prefix_nil|]. split; [discriminate|lia]. }
  cbv zeta.
  destruct (send_message self request_text options w) as [[response|e] w1].
  2: { exists request_text, EmptyString, 0%nat, EmptyString, PNone. simpl.
       split; [eexists; reflexivity|]. split; [congruence|lia]. }
  destruct (heap w1 !! response) as [o1|].
  2: { exists request_text, EmptyString, 0%nat, EmptyString, PNone. simpl.
       split; [eexists; reflexivity|]. split; [congruence|lia]. }
  destruct (validate_response self response w1) as [[[]|e] w2].
  2: { exists request_text, (text o1), response, EmptyString, PNone. simpl.
       split; [eexists; reflexivity|]. split; [congruence|lia]. }
  destruct (heap w2 !! response) as [o2|].
  2: { exists request_text, (text o1), response, EmptyString, PNone. simpl.
       split; [eexists; reflexivity|]. split; [congruence|lia]. }
  destruct (parse (text o2) validate) as [d|e].
  2: { exists request_text, (text o1), response, (text o2), PNone. simpl.
       split; [eexists; reflexivity|]. split; [congruence|lia]. }
  exists request_text, (text o1), response, (text o2), d. simpl.
  split; [exists []; reflexivity|]. split; [congruence|auto].
Qed.

(** X2. In every run of [send], whatever fails, the calls made are an
    initial segment of the round trip: log the request, [send_message],
    log the response, [validate_response], [parse], assign [data].  No
    step is skipped or taken out of turn, the text logged is the text
    sent, and the run returns exactly when all six calls were made. *)
Theorem send_calls_in_order self request kw w :
  let trim := apply_self self "trim_log_values" (PBool false) kw in
  let validate := apply_self self "validate_against_schema" (PBool true) kw in
  let options := kw_without ["trim_log_values"; "validate_against_schema"] kw in
  exists request_text logged_text response parsed_text d,
    trace_of (send self request kw) w
      `prefix_of` round_trip request_text trim options logged_text response
                             parsed_text validate d
    /\ match fst (fst (send self request kw w)) with
       | Ok r =>
           r = response /\
           trace_of (send self request kw) w
           = round_trip request_text trim options logged_text response
                        parsed_text validate d
       | Raise _ => (length (trace_of (send self request kw) w) < 6)%nat
       end.
Proof.
  intros trim validate options.
  destruct (send_trace_prefix self request kw w)
    as (request_text & logged_text & response & parsed_text & d & Hpre & _ & Hout).
  exists request_text, logged_text, response, parsed_text, d. auto.
Qed.

(** ** A request given as a string *)

(** X3. A request given as a string goes to [send_message] as it is:
    [json.dumps] plays no part in the run (two clients that differ only in
    their serializer behave alike), and the text is not checked to be
    JSON before it is sent. *)
Theorem send_string_verbatim (K1 K2 : Collaborators) self s kw w :
  (forall t v, @parse K1 t v = @parse K2 t v) ->
  @send K1 T self (PStr s) kw w = @send K2 T self (PStr s) kw w /\
  (rebinds ["self"; "request"] kw = false ->
   sends (trace_of (@send K1 T self (PStr s) kw) w)
   = [EvSendMessage s (kw_without ["trim_log_values"; "validate_against_schema"] kw)]).
Proof.
  intros Hparse. split.
  - unfold send. destruct (rebinds ["self"; "request"] kw); [reflexivity|].
    rewrite !send_body_run. simpl.
    destruct (send_message self s _ w) as [[response|e] w1]; [|reflexivity].
    destruct (heap w1 !! response) as [o1|]; [|reflexivity].
    destruct (validate_response self response w1) as [[[]|e] w2]; [|reflexivity].
    destruct (heap w2 !! response) as [o2|]; [|reflexivity].
    rewrite Hparse. reflexivity.
  - intros Hbound. rewrite send_sends, Hbound. reflexivity.
Qed.

(** ** The base [validate_response] *)


End SendFurther.

Section CallsFurther.

Context {K : Collaborators} {T : Transport}.

(** ** The flags of a call *)

Lemma send_uses_flags self request kw w ev :
  In ev (trace_of (send self request kw) w) ->
  uses_flags (apply_self self "trim_log_values" (PBool false) kw)
             (apply_self self "validate_against_schema" (PBool true) kw) ev.
Proof.
  intros Hin.
  destruct (send_trace_prefix self request kw w)
    as (request_text & logged_text & response & parsed_text & d & [k Hpre] & _).
  assert (In ev (round_trip request_text
                   (apply_self self "trim_log_values" (PBool false) kw)
                   (kw_without ["trim_log_values"; "validate_against_schema"] kw)
                   logged_text response parsed_text
                   (apply_self self "validate_against_schema" (PBool true) kw) d)) as Hall.
  { rewrite Hpre. apply in_or_app. left. exact Hin. }
  unfold round_trip, logged_request, logged_response in Hall. simpl in Hall.
  destruct Hall as [<-|[<-|[<-|[<-|[<-|[<-|[]]]]]]]; simpl; auto.
Qed.

(** X5. The flags given to [request] or [notify] govern the whole round
    trip of that call: every log record is made at level info with the
    [trim_log_values] of the call, and [parse] is called with its
    [validate_against_schema]; a flag the call does not give is the
    client's. *)
Theorem call_flags_govern_round_trip self method_name args kw w ev :
  let trim := match kw_get "trim_log_values" kw with
              | Some v => v
              | None => trim_log_values self
              end in
  let validate := match kw_get "validate_against_schema" kw with
                  | Some v => v
                  | None => validate_against_schema self
                  end in
  (In ev (trace_of (request self method_name args kw) w) -> uses_flags trim validate ev)
  /\
  (In ev (trace_of (notify self method_name args kw) w) -> uses_flags trim validate ev).
Proof.
  intros trim validate.
  assert (forall d, apply_self self "trim_log_values" d kw = trim) as Htrim.
  { intros d. unfold apply_self, trim. destruct (kw_get "trim_log_values" kw); reflexivity. }
  assert (forall d, apply_self self "validate_against_schema" d kw = validate) as Hval.
  { intros d. unfold apply_self, validate.
    destruct (kw_get "validate_against_schema" kw); reflexivity. }
  split; unfold trace_of.
  - destruct (rebinds ["self"; "method_name"] kw) eqn:Hbound.
    { unfold request. rewrite Hbound. intros []. }
    rewrite (request_run _ _ _ _ _ Hbound), Htrim, Hval.
    destruct (build_params args _) as [params|e]; [|intros []].
    destruct (next_id _ w) as [[[i|e] w1] t1]; [|intros []].
    intros Hin. apply send_uses_flags in Hin. exact Hin.
  - destruct (rebinds ["self"; "method_name"] kw) eqn:Hbound.
    { unfold notify. rewrite Hbound. intros []. }
    rewrite (notify_run _ _ _ _ _ Hbound), Htrim, Hval.
    destruct (Notification method_name args _) as [n|e]; [|intros []].
    intros Hin. apply send_uses_flags in Hin. exact Hin.
Qed.

(** ** One call to the transport *)

(** X6. [request] and [notify] call [send_message] at most once, whatever
    happens (there is no retry), and not at all when the message cannot be
    built. *)
Theorem one_transport_call_at_most self method_name args kw w :
  (length (sends (trace_of (request self method_name args kw) w)) <= 1)%nat /\
  (length (sends (trace_of (notify self method_name args kw) w)) <= 1)%nat /\
  (forall e w1 tr, Request method_name args (apply_self self "id_generator" PNone kw)
                     (kw_without ["trim_log_values"; "validate_against_schema";
                                  "id_generator"] kw) w = (Raise e, w1, tr) ->
                   sends (trace_of (request self method_name args kw) w) = []) /\
  (forall e, Notification method_name args
               (kw_without ["trim_log_values"; "validate_against_schema"] kw) = Raise e ->
             sends (trace_of (notify self method_name args kw) w) = []).
Proof.
  assert (forall (request : pyval) flags w0,
             (length (sends (trace_of (send self request flags) w0)) <= 1)%nat) as Hsend.
  { intros request flags w0. rewrite send_sends.
    destruct (rebinds _ flags); [simpl; lia|].
    destruct (request_text_of request); simpl; lia. }
  unfold trace_of in *.
  destruct (rebinds ["self"; "method_name"] kw) eqn:Hbound.
  { unfold request, notify. rewrite Hbound. simpl. repeat split; auto; lia. }
  rewrite (request_run _ _ _ _ _ Hbound), (notify_run _ _ _ _ _ Hbound).
  unfold Request, mbind, M_bind, lift, mret, M_ret.
  split; [|split; [|split]].
  - destruct (build_params args _); [|simpl; lia].
    destruct (next_id _ w) as [[[i|e] w1] t1]; [apply Hsend|simpl; lia].
  - destruct (Notification method_name args _); [apply Hsend|simpl; lia].
  - intros e w1 tr.
    destruct (build_params args _); [|reflexivity].
    destruct (next_id _ w) as [[[i|e'] w1'] t1]; [discriminate|reflexivity].
  - intros e ->. reflexivity.
Qed.

End CallsFurther.

Section IdsFurther.

Context {K : Collaborators} {T : Transport}.

(** ** Ids *)

(** [send] draws no id. *)
Lemma send_keeps_generators `{!KeepsGenerators T} self request kw w :
  generators (snd (fst (send self request kw w))) = generators w.
Proof.
  unfold send. destruct (rebinds ["self"; "request"] kw); [reflexivity|].
  rewrite send_body_run.
  destruct (request_text_of request) as [request_text|e]; [|reflexivity].
  cbv zeta.
  pose proof (send_message_keeps self request_text
                (kw_without ["trim_log_values"; "validate_against_schema"] kw) w) as Hs.
  destruct (send_message self request_text _ w) as [[response|e] w1]; [|exact Hs].
  simpl in Hs.
  destruct (heap w1 !! response) as [o1|]; [|exact Hs].
  pose proof (validate_response_keeps self response w1) as Hv.
  destruct (validate_response self response w1) as [[[]|e] w2];
    simpl in Hv |- *; [|congruence].
  destruct (heap w2 !! response) as [o2|]; simpl; [|congruence].
  destruct (parse (text o2) _); simpl; [|congruence].
  unfold generators in *. simpl. congruence.
Qed.

(** X7. With a transport that leaves the id generators alone, [notify]
    draws no id, and a [request] whose arguments the builder accepts
    draws exactly one, whether the round trip then succeeds or fails: the
    generators after the call are as that one draw left them. *)
Theorem request_draws_one_id `{!KeepsGenerators T} self method_name args kw w params :
  let generator := apply_self self "id_generator" PNone kw in
  rebinds ["self"; "method_name"] kw = false ->
  build_params args
    (kw_without ["trim_log_values"; "validate_against_schema"; "id_generator"] kw)
    = Ok params ->
  generators (snd (fst (request self method_name args kw w)))
    = generators (snd (fst (next_id generator w)))
  /\
  generators (snd (fst (notify self method_name args kw w))) = generators w.
Proof.
  intros generator Hbound Hparams. split.
  - rewrite (request_run _ _ _ _ _ Hbound), Hparams. fold generator.
    destruct (next_id generator w) as [[[i|e] w1] t1]; [|reflexivity].
    apply send_keeps_generators.
  - rewrite (notify_run _ _ _ _ _ Hbound).
    destruct (Notification method_name args _); [|reflexivity].
    apply send_keeps_generators.
Qed.

(** X8. A [request] whose id generator is exhausted raises
    [StopIteration] before anything is logged or sent, and leaves the
    store as it was. *)
Theorem request_exhausted_generator self method_name args kw w g it params :
  rebinds ["self"; "method_name"] kw = false ->
  apply_self self "id_generator" PNone kw = PRef g ->
  iters w !! g = Some it ->
  items it (pos it) = None ->
  build_params args
    (kw_without ["trim_log_values"; "validate_against_schema"; "id_generator"] kw)
    = Ok params ->
  request self method_name args kw w = (Raise StopIteration, w, []).
Proof.
  intros Hbound Hgen Hit Hnone Hparams.
  rewrite (request_run _ _ _ _ _ Hbound), Hparams, Hgen.
  unfold next_id. rewrite Hit, Hnone. reflexivity.
Qed.


End IdsFurther.

(** ** Construction and logging handlers *)

(** X11. Constructing clients never fails and leaves the store alone;
    each client holds its arguments; and every construction with
    [basic_logging] adds one more handler to each of the two loggers:
    handlers pile up, one pair for each such client. *)
Theorem construction_adds_handlers (l : list (pyval * pyval * pyval * bool)) w :
  fst (construct_all l w) = (Ok (List.map client_of l), w) /\
  handlers_on request_log (trace_of (construct_all l) w)
    = repeat DEFAULT_REQUEST_LOG_FORMAT (length (List.filter wants_logging l)) /\
  handlers_on response_log (trace_of (construct_all l) w)
    = repeat DEFAULT_RESPONSE_LOG_FORMAT (length (List.filter wants_logging l)).
Proof.
  unfold trace_of.
  induction l as [|[[[t v] g] b] l IH]; [repeat split|].
  destruct IH as (Hres & Hreq & Hresp).
  cbn [construct_all].
  unfold mbind, M_bind, mret, M_ret, __init__, basic_logging, emit.
  destruct b; simpl;
    destruct (construct_all l w) as [[r w'] tr];
    simpl in Hres, Hreq, Hresp; inversion Hres; subst r w'; simpl;
    rewrite ?app_nil_r, ?Hreq, ?Hresp; repeat split.
Qed.

Section OptionsFurther.

Context {K : Collaborators} {T : Transport}.

(** ** The flags stay with the client *)

(** X12. The transport never sees the client's own flags: in every run of
    [send], [request] or [notify], the options [send_message] is called
    with hold no [trim_log_values] and no [validate_against_schema]. *)
Theorem flags_never_reach_transport self message method_name args kw w request_text options :
  In (EvSendMessage request_text options) (trace_of (send self message kw) w) \/
  In (EvSendMessage request_text options) (trace_of (request self method_name args kw) w) \/
  In (EvSendMessage request_text options) (trace_of (notify self method_name args kw) w) ->
  kw_has "trim_log_values" options = false /\
  kw_has "validate_against_schema" options = false.
Proof.
  assert (forall (m : pyval) flags w0,
             In (EvSendMessage request_text options) (trace_of (send self m flags) w0) ->
             kw_has "trim_log_values" options = false /\
             kw_has "validate_against_schema" options = false) as Hsend.
  { intros m flags w0 Hin. apply sent_by_send in Hin. destruct Hin as (_ & -> & _).
    split; apply kw_has_without; simpl; auto. }
  unfold trace_of in *.
  intros [Hin|[Hin|Hin]].
  - eapply Hsend. exact Hin.
  - destruct (rebinds ["self"; "method_name"] kw) eqn:Hbound.
    { unfold request in Hin. rewrite Hbound in Hin. destruct Hin. }
    rewrite (request_run _ _ _ _ _ Hbound) in Hin.
    destruct (build_params args _) as [params|e]; [|destruct Hin].
    destruct (next_id _ w) as [[[i|e] w1] t1]; [|destruct Hin].
    eapply Hsend. exact Hin.
  - destruct (rebinds ["self"; "method_name"] kw) eqn:Hbound.
    { unfold notify in Hin. rewrite Hbound in Hin. destruct Hin. }
    rewrite (notify_run _ _ _ _ _ Hbound) in Hin.
    destruct (Notification method_name args _) as [n|e]; [|destruct Hin].
    eapply Hsend. exact Hin.
Qed.

End OptionsFurther.

(** ** The further properties at concrete inputs *)

(** The transports of the examples leave the id generators alone. *)
Lemma reply_with_keeps_generators reply : KeepsGenerators (reply_with reply).
Proof. split; intros; reflexivity. Qed.

Lemma send_unserializable_witness :
  @send python_collaborators (reply_with pong_text) default_client
        (PList [PInt 1; PRef 7]) [("timeout", PInt 3)] empty_world
  = (Raise (TypeError "Object is not JSON serializable"), empty_world, []).
Proof.
  apply (@send_unserializable python_collaborators (reply_with pong_text)
           default_client (PList [PInt 1; PRef 7]) [("timeout", PInt 3)] empty_world).
  - reflexivity.
  - intros s. discriminate.
  - reflexivity.
Defined.

Lemma send_string_verbatim_witness :
  @send python_collaborators (reply_with pong_text) default_client
        (PStr "not json") [] empty_world
  = @send no_serializer (reply_with pong_text) default_client
          (PStr "not json") [] empty_world
  /\
  (rebinds ["self"; "request"] [] = false ->
   sends (trace_of (@send python_collaborators (reply_with pong_text) default_client
                          (PStr "not json") []) empty_world)
   = [EvSendMessage "not json"
        (kw_without ["trim_log_values"; "validate_against_schema"] [])]).
Proof.
  apply (@send_string_verbatim (reply_with pong_text) python_collaborators
           no_serializer default_client "not json" [] empty_world).
  intros t v. reflexivity.
Defined.


Lemma call_flags_govern_round_trip_witness :
  uses_flags (PBool true) (PBool false)
    (EvParse pong_text (PBool false))
  /\
  uses_flags (PBool true) (PBool true)
    (EvLog response_log "info" EmptyString (PBool true) []).
Proof.
  split.
  - apply (proj1 (@call_flags_govern_round_trip python_collaborators
                    (reply_with pong_text) default_client "cat" [PInt 1]
                    [("trim_log_values", PBool true);
                     ("validate_against_schema", PBool false)]
                    empty_world (EvParse pong_text (PBool false)))).
    vm_compute. do 4 right. left. reflexivity.
  - apply (proj2 (@call_flags_govern_round_trip python_collaborators
                    (reply_with EmptyString) default_client "ping" []
                    [("trim_log_values", PBool true)]
                    empty_world (EvLog response_log "info" EmptyString (PBool true) []))).
    vm_compute. do 2 right. left. reflexivity.
Defined.

Lemma one_transport_call_at_most_witness :
  sends (trace_of (@request python_collaborators (reply_with pong_text)
                            default_client "cat" [PInt 1] [("name", PStr "Yoko")])
                  empty_world) = []
  /\
  sends (trace_of (@notify python_collaborators (reply_with pong_text)
                           default_client "cat" [PInt 1] [("name", PStr "Yoko")])
                  empty_world) = [].
Proof.
  split.
  - apply (proj1 (proj2 (proj2 (@one_transport_call_at_most python_collaborators
                                  (reply_with pong_text) default_client "cat" [PInt 1]
                                  [("name", PStr "Yoko")] empty_world)))
             ArgumentError empty_world []).
    reflexivity.
  - apply (proj2 (proj2 (proj2 (@one_transport_call_at_most python_collaborators
                                  (reply_with pong_text) default_client "cat" [PInt 1]
                                  [("name", PStr "Yoko")] empty_world)))
             ArgumentError).
    reflexivity.
Defined.

Lemma request_draws_one_id_witness :
  generators (snd (fst (@request python_collaborators (reply_with "<html>")
                                 default_client "cat" [PInt 1] [] empty_world)))
  = generators (snd (fst (next_id (apply_self default_client "id_generator" PNone [])
                                  empty_world)))
  /\
  generators (snd (fst (@notify python_collaborators (reply_with "<html>")
                                default_client "cat" [PInt 1] [] empty_world)))
  = generators empty_world.
Proof.
  apply (@request_draws_one_id python_collaborators (reply_with "<html>")
           (reply_with_keeps_generators "<html>") default_client "cat" [PInt 1] []
           empty_world [("params", PList [PInt 1])]); reflexivity.
Defined.

Lemma request_exhausted_generator_witness :
  @request python_collaborators (reply_with pong_text) client_with_generator
           "cat" [] [("name", PStr "Yoko")] world_with_exhausted
  = (Raise StopIteration, world_with_exhausted, []).
Proof.
  apply (@request_exhausted_generator python_collaborators (reply_with pong_text)
           client_with_generator "cat" [] [("name", PStr "Yoko")]
           world_with_exhausted 7%nat exhausted
           [("params", PDict [("name", PStr "Yoko")])]);
    vm_compute; reflexivity.
Defined.


Lemma flags_never_reach_transport_witness :
  kw_has "trim_log_values" [("timeout", PInt 3)] = false /\
  kw_has "validate_against_schema" [("timeout", PInt 3)] = false.
Proof.
  apply (@flags_never_reach_transport python_collaborators (reply_with pong_text)
           default_client (PStr ping_text) "cat" []
           [("trim_log_values", PBool true); ("timeout", PInt 3);
            ("validate_against_schema", PBool false)]
           empty_world ping_text [("timeout", PInt 3)]).
  left. vm_compute. right. left. reflexivity.
Defined.
